(** * PDF2Excel: the table-normalisation and conversion pipeline of
    [streamlit_app.py], embedded in Rocq.

    Python values are modelled as follows.
    - [str] is a sequence of Unicode code points: [pystr := list N].
    - a table cell is [Optional[str]]: [Cell := option pystr].
    - [int] is [Z] (or [N] for counters that start at 0 or 1 and only grow).
    - [float] is IEEE binary64, through the Standard Library's [spec_float]
      with precision 53 and maximal exponent 1024.
    - a call into pdfplumber may raise: its outcome is a [result].
    - the [while] loop that makes sheet names unique takes fuel; running out
      of fuel is [None]. *)

From Stdlib Require Import String Ascii.
From Stdlib Require Import List Sorted FinFun ZArith NArith PArith QArith.
From Stdlib Require Import Bool Lia Arith.
From Stdlib Require Import Floats.SpecFloat.
Close Scope Q_scope.
Import ListNotations.

Set Implicit Arguments.

(* ================================================================= *)
(** ** Python strings *)

Definition pystr := list N.

(** A string literal of the source, as code points. *)
Definition py (s : string) : pystr :=
  map N_of_ascii (list_ascii_of_string s).

Definition pystr_eq_dec : forall (a b : pystr), {a = b} + {a <> b} :=
  list_eq_dec N.eq_dec.

(** Membership of a code point in a finite table of code points. *)
Definition char_in (c : N) (table : list N) : bool := existsb (N.eqb c) table.

(** [str.isspace] on one code point, which is also the class [\s] of [re] on
    [str] patterns: the code points CPython lists as whitespace. *)
Definition whitespace_table : list N :=
  [9; 10; 11; 12; 13; 28; 29; 30; 31; 32; 133; 160; 5760;
   8192; 8193; 8194; 8195; 8196; 8197; 8198; 8199; 8200; 8201; 8202;
   8232; 8233; 8239; 8287; 12288]%N.

Definition isspace (c : N) : bool := char_in c whitespace_table.

(** The character class [[:\\/\?\*\[\]]] of [sanitize_sheet_name]. *)
Definition forbidden_table : list N := Eval vm_compute in py ":\/?*[]".

Definition forbidden (c : N) : bool := char_in c forbidden_table.

Definition space : N := 32%N.

(** [re.sub(r'[:\\/\?\*\[\]]', ' ', name)] *)
Definition sub_forbidden (name : pystr) : pystr :=
  map (fun c => if forbidden c then space else c) name.

(** [re.sub(r'\s+', ' ', name)]: every maximal run of whitespace becomes one
    space. [in_run] says that the previous character was whitespace. *)
Fixpoint sub_ws_runs (in_run : bool) (name : pystr) : pystr :=
  match name with
  | [] => []
  | c :: rest =>
      if isspace c
      then (if in_run then sub_ws_runs true rest
            else space :: sub_ws_runs true rest)
      else c :: sub_ws_runs false rest
  end.

Fixpoint lstrip (s : pystr) : pystr :=
  match s with
  | [] => []
  | c :: rest => if isspace c then lstrip rest else s
  end.

Definition rstrip (s : pystr) : pystr := rev (lstrip (rev s)).

(** [s.strip()] *)
Definition strip (s : pystr) : pystr := rstrip (lstrip s).

(** Truthiness of a [str]: non-empty. *)
Definition truthy (s : pystr) : bool :=
  match s with [] => false | _ => true end.

(** [sanitize_sheet_name], lines 16-22. *)
Definition sanitize_sheet_name (name : pystr) : pystr :=
  let name := sub_forbidden name in
  let name := strip (sub_ws_runs false name) in
  if truthy name then firstn 31 name else py "Sheet".

(** [str(n)] for a non-negative [int]: its decimal digits. *)
Fixpoint str_int_aux (fuel : nat) (n : N) (acc : pystr) : pystr :=
  let acc' := (48 + n mod 10)%N :: acc in
  match fuel with
  | O => acc'
  | S f => if (n / 10 =? 0)%N then acc' else str_int_aux f (n / 10)%N acc'
  end.

Definition str_int (n : N) : pystr :=
  str_int_aux (N.to_nat (N.size n)) n [].

(** [sep.join(parts)] *)
Fixpoint join (sep : pystr) (parts : list pystr) : pystr :=
  match parts with
  | [] => []
  | [p] => p
  | p :: rest => p ++ sep ++ join sep rest
  end.

(** Line boundaries of [str.splitlines]. *)
Definition linebreak_table : list N :=
  [10; 11; 12; 13; 28; 29; 30; 133; 8232; 8233]%N.

Definition linebreak (c : N) : bool := char_in c linebreak_table.

(** [txt.splitlines()]: [cur] is the current line, reversed. A carriage
    return followed by a line feed is one boundary; no empty last line. *)
Fixpoint splitlines_from (cur : pystr) (s : pystr) : list pystr :=
  match s with
  | [] => match cur with [] => [] | _ => [rev cur] end
  | c :: rest =>
      if (c =? 13)%N then
        match rest with
        | d :: rest' =>
            if (d =? 10)%N then rev cur :: splitlines_from [] rest'
            else rev cur :: splitlines_from [] rest
        | [] => rev cur :: splitlines_from [] rest
        end
      else if linebreak c then rev cur :: splitlines_from [] rest
      else splitlines_from (c :: cur) rest
  end.

Definition splitlines (s : pystr) : list pystr := splitlines_from [] s.

(* ================================================================= *)
(** ** Floats: what [/] and [>] compute in [infer_header_row] *)

(** An [int] as an exact (not yet rounded) binary float. *)
Definition exact_int (n : Z) : spec_float :=
  match n with
  | Z0 => S754_zero false
  | Zpos p => S754_finite false p 0
  | Zneg p => S754_finite true p 0
  end.

(** [a / b] on two [int]s: the binary64 nearest to the quotient, ties to
    even (CPython rounds the exact quotient once). *)
Definition int_truediv (a b : Z) : spec_float :=
  SFdiv 53 1024 (exact_int a) (exact_int b).

(** The literal [0.15]: the binary64 nearest to 15/100. *)
Definition float_0_15 : spec_float := Eval vm_compute in int_truediv 15 100.

(** [x > y] on floats. *)
Definition float_gt (x y : spec_float) : bool := SFltb y x.

(* ================================================================= *)
(** ** An ASCII reading of the grammar accepted by the builtin [float]

    [infer_header_row] is stated over any acceptance predicate for the
    builtin; this one is what the builtin answers on a string of ASCII
    characters (outside ASCII the builtin also reads other decimal digits
    and skips other whitespace) and is used to run examples, all ASCII. *)

Definition is_digit (c : N) : bool := ((48 <=? c) && (c <=? 57))%N.

Definition lower (c : N) : N :=
  if ((65 <=? c) && (c <=? 90))%N then (c + 32)%N else c.

(** After a digit: [(["_"] digit)*]; returns what is left. *)
Fixpoint digits_tail (s : pystr) : pystr :=
  match s with
  | [] => []
  | c :: rest =>
      if is_digit c then digits_tail rest
      else if (c =? 95)%N then
        match rest with
        | d :: rest' => if is_digit d then digits_tail rest' else s
        | [] => s
        end
      else s
  end.

Definition digitpart (s : pystr) : option pystr :=
  match s with
  | c :: rest => if is_digit c then Some (digits_tail rest) else None
  | [] => None
  end.

Definition skip_sign (s : pystr) : pystr :=
  match s with
  | c :: rest => if ((c =? 43) || (c =? 45))%N then rest else s
  | [] => s
  end.

(** [[digitpart] "." digitpart | digitpart ["."]] *)
Definition number (s : pystr) : option pystr :=
  match digitpart s with
  | Some r =>
      match r with
      | c :: r2 =>
          if (c =? 46)%N
          then match digitpart r2 with Some r3 => Some r3 | None => Some r2 end
          else Some r
      | [] => Some r
      end
  | None =>
      match s with
      | c :: r2 => if (c =? 46)%N then digitpart r2 else None
      | [] => None
      end
  end.

Definition floatnumber (s : pystr) : bool :=
  match number s with
  | Some [] => true
  | Some (c :: r) =>
      if (lower c =? 101)%N then
        match digitpart (skip_sign r) with
        | Some [] => true
        | _ => false
        end
      else false
  | None => false
  end.

(** The whitespace that [float] skips at both ends of an ASCII string:
    tab, line feed, vertical tab, form feed, carriage return and space. *)
Definition ascii_space (c : N) : bool :=
  (((9 <=? c) && (c <=? 13)) || (c =? 32))%N.

Fixpoint skip_ascii_space (s : pystr) : pystr :=
  match s with
  | [] => []
  | c :: rest => if ascii_space c then skip_ascii_space rest else s
  end.

Definition float_strip (s : pystr) : pystr :=
  rev (skip_ascii_space (rev (skip_ascii_space s))).

Definition float_accepts_ascii (s : pystr) : bool :=
  let body := skip_sign (float_strip s) in
  let low := map lower body in
  if pystr_eq_dec low (py "inf") then true
  else if pystr_eq_dec low (py "infinity") then true
  else if pystr_eq_dec low (py "nan") then true
  else floatnumber body.

(* ================================================================= *)
(** ** Cells, rows and the Row Normalizer *)

Definition Cell := option pystr.
Definition Row := list Cell.

(** [cell not in (None, "")] *)
Definition nonblank (cell : Cell) : bool :=
  match cell with
  | None => false
  | Some s => truthy s
  end.

(** [row[c]]. Python raises out of range; every index that
    [clean_table_data] uses is in range (lemma [cols_to_keep_in_range]). *)
Definition getitem (row : Row) (c : nat) : Cell := nth c row None.

(** [list(r) + [None] * (max_len - len(r))] *)
Definition pad_row (max_len : nat) (r : Row) : Row :=
  r ++ repeat None (max_len - length r).

(** The list [cols_to_keep] built by the loop of lines 60-63. *)
Definition cols_to_keep (max_len : nat) (rows : list Row) : list nat :=
  filter (fun c => existsb (fun row => nonblank (getitem row c)) rows)
         (seq 0 max_len).

(** [clean_table_data], lines 46-65. *)
Definition clean_table_data (rows : list Row) : list Row :=
  match rows with
  | [] => rows
  | _ =>
      let rows := filter (existsb nonblank) rows in
      match rows with
      | [] => rows
      | _ =>
          let max_len := list_max (map (@length Cell) rows) in
          let rows := map (pad_row max_len) rows in
          let keep := cols_to_keep max_len rows in
          map (fun row => map (getitem row) keep) rows
      end
  end.

(* ================================================================= *)
(** ** Calls into pdfplumber *)

Inductive result (A : Type) : Type :=
| Ok (a : A)
| Raised.
Arguments Raised {A}.

Definition bind_result {A B} (r : result A) (k : A -> result B) : result B :=
  match r with
  | Ok a => k a
  | Raised => Raised
  end.

(** [try: body  except Exception: handler] *)
Definition try_except {A} (body handler : result A) : result A :=
  match body with
  | Ok a => Ok a
  | Raised => handler
  end.

(** [[f(x) for x in xs]] where [f] may raise. *)
Fixpoint all_ok {A} (xs : list (result A)) : result (list A) :=
  match xs with
  | [] => Ok []
  | x :: rest =>
      bind_result x (fun a => bind_result (all_ok rest) (fun l => Ok (a :: l)))
  end.

(** [x or []] *)
Definition or_empty {A} (x : option (list A)) : list A :=
  match x with
  | Some l => l
  | None => []
  end.

Record Word := { word_text : pystr }.
Record Image := { image_name : pystr }.

(** A page of the document, as what each accessor gives when it is called.
    A table found by [find_tables] is what its [extract()] gives. *)
Record Page := {
  find_tables : result (option (list (result (list Row))));
  extract_tables : result (option (list (list Row)));
  extract_text : result (option pystr);
  extract_words : result (option (list Word));
  images : result (option (list Image))
}.

(** [looks_scanned], lines 67-76. [page.images] is read only when there are
    no words ([and] short-circuits). *)
Definition looks_scanned (page : Page) : result bool :=
  try_except
    (bind_result (extract_words page) (fun w =>
       let words := or_empty w in
       if Nat.eqb (length words) 0
       then bind_result (images page) (fun i =>
              Ok (Nat.ltb 0 (length (or_empty i))))
       else Ok false))
    (Ok false).

(** Lines 99-107: the value of [extracted_tables] after the nested [try]. *)
Definition extracted_tables (page : Page) : result (list (list Row)) :=
  try_except
    (bind_result (find_tables page) (fun tbls =>
       match tbls with
       | Some (t :: ts) => all_ok (t :: ts)
       | _ => Ok []
       end))
    (try_except
       (bind_result (extract_tables page) (fun t => Ok (or_empty t)))
       (Ok [])).

(** Lines 138-141: the value of [txt]. *)
Definition page_text (page : Page) : result pystr :=
  try_except
    (bind_result (extract_text page) (fun t =>
       Ok (match t with Some s => s | None => [] end)))
    (Ok []).

(** Lines 142-145: the records one page appends to [text_rows]. *)
Definition page_text_rows (page_index : N) (txt : pystr) : list (N * pystr) :=
  if truthy (strip txt) then
    flat_map (fun line =>
                if truthy (strip line) then [(page_index, strip line)] else [])
             (splitlines txt)
  else [].

(* ================================================================= *)
(** ** The workbook handed to the spreadsheet writer *)

(** The argument of each [pd.DataFrame(...)] call of the converter. None of
    these calls raises: the rows of a table have one length, that of the
    labels when there are labels (lemma [clean_table_data_invariant]). *)
Inductive Frame : Type :=
| Frame_labeled (columns : list pystr) (data : list Row)
    (** [pd.DataFrame(data, columns=[...])] *)
| Frame_rows (rows : list Row)
    (** [pd.DataFrame(rows)] *)
| Frame_text (records : list (option N * pystr))
    (** [pd.DataFrame(text_rows)], keys ["Page"] and ["Text"] *)
| Frame_info (note pages : pystr).
    (** the ["Note"] / ["Pages"] frame of the Info sheet *)

Definition Workbook := list (pystr * Frame).

(** [writer.book.sheetnames] *)
Definition sheetnames (wb : Workbook) : list pystr := map fst wb.

(** Lines 126-130: the [while] loop, [sheet] and [suffix] being the loop
    variables. [None]: the fuel ran out before the loop ended. *)
Fixpoint unique_sheet (fuel : nat) (names : list pystr) (base sheet : pystr)
    (suffix : N) : option pystr :=
  if in_dec pystr_eq_dec sheet names then
    match fuel with
    | O => None
    | S f =>
        unique_sheet f names base
          (sanitize_sheet_name (base ++ py "_" ++ str_int suffix))
          (suffix + 1)%N
    end
  else Some sheet.

(** [f"p{page_index}_tbl{n}"] *)
Definition table_name (page_index n : N) : pystr :=
  py "p" ++ str_int page_index ++ py "_tbl" ++ str_int n.

(** Line 124: the name of the [n]-th kept table of page [page_index],
    before the loop. *)
Definition table_sheet (page_index n : N) : pystr :=
  sanitize_sheet_name (table_name page_index n).

(** Line 113: [not rows or len(rows) == 0 or (len(rows) == 1 and
    len(rows[0]) <= 1)]. *)
Definition is_noise (rows : list Row) : bool :=
  match rows with
  | [] => true
  | [r] => Nat.leb (length r) 1
  | _ => false
  end.

(** [str(c) if c is not None else ""] *)
Definition label (c : Cell) : pystr :=
  match c with
  | Some s => s
  | None => []
  end.

(** [str(x)] on a cell. *)
Definition str_cell (x : Cell) : pystr :=
  match x with
  | Some s => s
  | None => py "None"
  end.

(** [s.replace(",", "")] *)
Definition remove_commas (s : pystr) : pystr :=
  filter (fun c => negb (c =? 44)%N) s.

Definition is_None (x : Cell) : bool :=
  match x with None => true | Some _ => false end.

(** What the converter carries from page to page. *)
Record State := {
  book : Workbook;
  ocr_pages : list N;
  tables_found : N;
  text_rows : list (N * pystr)
}.

Definition init_state : State :=
  {| book := []; ocr_pages := []; tables_found := 0%N; text_rows := [] |}.

Definition placeholder_text : Frame :=
  Frame_text [(None, py "No extractable content found.")].

(** Lines 151-155: [df_text]. *)
Definition text_frame (text_rows : list (N * pystr)) : Frame :=
  match text_rows with
  | [] => placeholder_text
  | _ :: _ => Frame_text (map (fun r => (Some (fst r), snd r)) text_rows)
  end.

Definition info_frame (pages : list N) : Frame :=
  Frame_info (py "Some pages appear scanned (image-only). OCR recommended.")
             (join (py ", ") (map str_int pages)).

Section Converter.

(** Whether the builtin [float] accepts a string. *)
Variable py_float : pystr -> bool.

(** Whether [df.to_excel(writer, index=False, sheet_name=sheet)] writes the
    sheet; it raises otherwise. openpyxl refuses a string that holds a
    control character (IllegalCharacterError), pandas a frame beyond the
    limits of a sheet. *)
Variable excel_accepts : pystr -> Frame -> bool.

(** [df.to_excel(writer, index=False, sheet_name=sheet)]: a new sheet at the
    end of the book, or the exception of the writer. The converter only
    writes under a name the book does not have yet (lemma
    [convert_sheetnames_NoDup]). *)
Definition to_excel (wb : Workbook) (sheet : pystr) (df : Frame)
    : result Workbook :=
  if excel_accepts sheet df then Ok (wb ++ [(sheet, df)]) else Raised.

(** The inner [is_number] of [infer_header_row], lines 32-37. *)
Definition is_number (x : Cell) : bool :=
  py_float (remove_commas (str_cell x)).

(** [sum(is_number(x) for x in remaining)] *)
Definition count_numbers (remaining : list Cell) : Z :=
  fold_right Z.add 0%Z (map (fun x => Z.b2z (is_number x)) remaining).

(** The list [remaining] of line 42. *)
Definition remaining_cells (rest : list Row) : list Cell :=
  flat_map (filter nonblank) rest.

(** Line 43. *)
Definition numeric_ratio (remaining : list Cell) : spec_float :=
  int_truediv (count_numbers remaining)
              (Z.max 1 (Z.of_nat (length remaining))).

(** [infer_header_row], lines 24-44. [None] is Python's [None]. *)
Definition infer_header_row (rows : list Row) : option nat :=
  match rows with
  | [] => None
  | [] :: _ => None
  | first :: rest =>
      let first_all_str :=
        forallb (fun x => is_None x || negb (is_number x)) first in
      if negb first_all_str then None
      else if float_gt (numeric_ratio (remaining_cells rest)) float_0_15
           then Some 0 else None
  end.

(** Lines 116-122: the frame of a kept table. *)
Definition table_frame (rows : list Row) : Frame :=
  match infer_header_row rows with
  | Some header_idx =>
      Frame_labeled (map label (nth header_idx rows []))
                    (skipn (header_idx + 1) rows)
  | None => Frame_rows rows
  end.

(** One turn of the loop of lines 111-134 over [(book, tables_found,
    table_count_this_page)]. [None]: the fuel ran out in the loop of lines
    128-130; [Some Raised]: line 132 raised. *)
Definition write_table (fuel : nat) (page_index : N)
    (st : Workbook * N * N) (raw_rows : list Row)
    : option (result (Workbook * N * N)) :=
  let '(wb, found, count) := st in
  let rows := clean_table_data raw_rows in
  if is_noise rows then Some (Ok st)
  else
    let df := table_frame rows in
    let sheet := table_sheet page_index (count + 1) in
    match unique_sheet fuel (sheetnames wb) sheet sheet 2 with
    | Some sheet' =>
        match to_excel wb sheet' df with
        | Ok wb' => Some (Ok (wb', (found + 1)%N, (count + 1)%N))
        | Raised => Some Raised
        end
    | None => None
    end.

Fixpoint write_tables (fuel : nat) (page_index : N) (st : Workbook * N * N)
    (tables : list (list Row)) : option (result (Workbook * N * N)) :=
  match tables with
  | [] => Some (Ok st)
  | raw_rows :: rest =>
      match write_table fuel page_index st raw_rows with
      | Some (Ok st') => write_tables fuel page_index st' rest
      | other => other
      end
  end.

(** The body of the page loop, lines 97-147. [None]: out of fuel;
    [Some Raised]: an exception left the body. *)
Definition convert_page (fuel : nat) (page_index : N) (page : Page)
    (st : State) : option (result State) :=
  match extracted_tables page with
  | Raised => Some Raised
  | Ok tables =>
      match write_tables fuel page_index (book st, tables_found st, 0%N) tables with
      | None => None
      | Some Raised => Some Raised
      | Some (Ok (wb, found, count)) =>
          if (count =? 0)%N then
            match page_text page with
            | Raised => Some Raised
            | Ok txt =>
                match looks_scanned page with
                | Raised => Some Raised
                | Ok scanned =>
                    Some (Ok {| book := wb;
                                ocr_pages := if scanned
                                             then ocr_pages st ++ [page_index]
                                             else ocr_pages st;
                                tables_found := found;
                                text_rows := text_rows st
                                             ++ page_text_rows page_index txt |})
                end
            end
          else
            Some (Ok {| book := wb; ocr_pages := ocr_pages st;
                        tables_found := found; text_rows := text_rows st |})
      end
  end.

(** [for page_index, page in enumerate(pdf.pages, start=page_index)] *)
Fixpoint convert_pages (fuel : nat) (page_index : N) (pages : list Page)
    (st : State) : option (result State) :=
  match pages with
  | [] => Some (Ok st)
  | page :: rest =>
      match convert_page fuel page_index page st with
      | Some (Ok st') => convert_pages fuel (page_index + 1)%N rest st'
      | other => other
      end
  end.

(** Lines 149-156: the Text sheet, when no table was written. *)
Definition write_text (st : State) : result Workbook :=
  if (tables_found st =? 0)%N
  then to_excel (book st) (py "Text") (text_frame (text_rows st))
  else Ok (book st).

(** Lines 149-164: the Text sheet, then the Info sheet when a page looked
    scanned. *)
Definition finish (st : State) : result Workbook :=
  bind_result (write_text st) (fun wb =>
    match ocr_pages st with
    | [] => Ok wb
    | _ :: _ => to_excel wb (py "Info") (info_frame (ocr_pages st))
    end).

(** [convert_pdf_to_excel_bytes] on the pages of an opened document; the
    result is the book that the writer serialises when the [with] block
    ends, or the exception that left the block. *)
Definition convert_pdf_to_excel_bytes (fuel : nat) (pages : list Page)
    : option (result Workbook) :=
  match convert_pages fuel 1%N pages init_state with
  | Some (Ok st) => Some (finish st)
  | Some Raised => Some Raised
  | None => None
  end.

End Converter.

(** ** A reading of the writer

    The converter is stated over any acceptance predicate for the writer;
    this one is the test openpyxl makes on every string it writes to a cell
    (no code point among 0-8, 11, 12 and 14-31) and is used to run
    examples. *)

Definition illegal_character (c : N) : bool :=
  ((c <=? 8) || (c =? 11) || (c =? 12) || ((14 <=? c) && (c <=? 31)))%N.

Definition legal (s : pystr) : bool := negb (existsb illegal_character s).

Definition legal_cell (c : Cell) : bool :=
  match c with
  | Some s => legal s
  | None => true
  end.

Definition openpyxl_accepts (sheet : pystr) (df : Frame) : bool :=
  match df with
  | Frame_labeled columns data =>
      forallb legal columns && forallb (forallb legal_cell) data
  | Frame_rows rows => forallb (forallb legal_cell) rows
  | Frame_text records => forallb (fun r => legal (snd r)) records
  | Frame_info note pages => legal note && legal pages
  end.

(* ================================================================= *)
(** ** Vocabulary of the specification *)

(** The cell of [row] at column [c] of the raw table, or the absent cell
    that pads a row shorter than that. *)
Definition original_or_padding (row : Row) (c : nat) : Cell :=
  match nth_error row c with
  | Some cell => cell
  | None => None
  end.

(** A row that is entirely absent or empty cells. *)
Definition all_blank (row : Row) : bool := negb (existsb nonblank row).

(** Column [c] holds a non-empty cell in some row. *)
Definition column_used (rows : list Row) (c : nat) : bool :=
  existsb (fun row => nonblank (original_or_padding row c)) rows.

(** The columns of a raw table that survive: those, up to the longest row,
    that hold a non-empty cell somewhere. *)
Definition surviving_columns (raw : list Row) : list nat :=
  filter (column_used raw) (seq 0 (list_max (map (@length Cell) raw))).

(** The Grid invariant of the data model, for rows of length [width]. *)
Definition Grid_invariant (width : nat) (g : list Row) : Prop :=
  Forall (fun row => length row = width) g /\
  Forall (fun row => all_blank row = false) g /\
  (g <> [] -> forall c, c < width -> column_used g c = true).

(** The primary mode: [find_tables], then [extract()] on every table. *)
Definition primary_mode (page : Page) : result (list (list Row)) :=
  bind_result (find_tables page) (fun tbls => all_ok (or_empty tbls)).

(** The secondary mode: [extract_tables]. *)
Definition secondary_mode (page : Page) : result (list (list Row)) :=
  bind_result (extract_tables page) (fun t => Ok (or_empty t)).

(** The same page, had table extraction found nothing. *)
Definition without_tables (page : Page) : Page :=
  {| find_tables := Ok (Some []);
     extract_tables := extract_tables page;
     extract_text := extract_text page;
     extract_words := extract_words page;
     images := images page |}.

(** The value of a string of decimal digits. *)
Definition int_of_digits (s : pystr) : N :=
  fold_left (fun acc c => (acc * 10 + (c - 48))%N) s 0%N.

(** A character that [sanitize_sheet_name] leaves alone. *)
Definition plain (c : N) : bool := negb (isspace c) && negb (forbidden c).

(** The only whitespace is single spaces, none after whitespace: what
    [re.sub(r'\s+', ' ', ...)] leaves. [prev]: the character before is
    whitespace. *)
Fixpoint single_spaced (prev : bool) (s : pystr) : bool :=
  match s with
  | [] => true
  | c :: rest =>
      if isspace c
      then negb prev && (c =? space)%N && single_spaced true rest
      else single_spaced false rest
  end.

(** The uniquing of a candidate name against the names in use: line 124
    and the loop of lines 126-130. *)
Definition unique_name (fuel : nat) (candidate : pystr)
    (existing : list pystr) : option pystr :=
  let sheet := sanitize_sheet_name candidate in
  unique_sheet fuel existing sheet sheet 2.

(** The names in use after uniquing each candidate in turn, every name
    found being added to the names in use. *)
Fixpoint unique_names (fuel : nat) (candidates : list pystr)
    (existing : list pystr) : option (list pystr) :=
  match candidates with
  | [] => Some existing
  | candidate :: rest =>
      match unique_name fuel candidate existing with
      | Some sheet => unique_names fuel rest (existing ++ [sheet])
      | None => None
      end
  end.

(** [f"{base}_{suffix}"] *)
Definition suffixed (base : pystr) (suffix : N) : pystr :=
  base ++ py "_" ++ str_int suffix.
(** The raw tables of a page, as the converter sees them. *)
Definition page_tables (page : Page) : list (list Row) :=
  match extracted_tables page with
  | Ok tables => tables
  | Raised => []
  end.

(** The tables of a page that survive: normalised and not noise. *)
Definition surviving_tables (page : Page) : list (list Row) :=
  filter (fun rows => negb (is_noise rows))
         (map clean_table_data (page_tables page)).

(** The text of a page: what [extract_text] gives, and no text when it
    gives nothing or fails. *)
Definition text_of (page : Page) : pystr :=
  match extract_text page with
  | Ok (Some txt) => txt
  | Ok None => []
  | Raised => []
  end.

(** The TextLines of a page: its lines, trimmed, without the blank ones,
    each with the number of the page. *)
Definition text_lines (page_index : N) (page : Page) : list (N * pystr) :=
  map (pair page_index)
      (filter truthy (map strip (splitlines (text_of page)))).

(** The TextLines of the pages from number [page_index] on, when none of
    them has a surviving table. *)
Fixpoint document_text (page_index : N) (pages : list Page)
    : list (N * pystr) :=
  match pages with
  | [] => []
  | page :: rest =>
      text_lines page_index page ++ document_text (page_index + 1)%N rest
  end.

(** The ScanFlags of the pages from number [page_index] on. *)
Fixpoint scan_flags (page_index : N) (pages : list Page) : list N :=
  match pages with
  | [] => []
  | page :: rest =>
      match looks_scanned page with
      | Ok true => page_index :: scan_flags (page_index + 1)%N rest
      | _ => scan_flags (page_index + 1)%N rest
      end
  end.

(** The Text sheet for the given TextLines: one (Page, Text) record per
    line, or the single placeholder record when there is no line. *)
Definition text_sheet (lines : list (N * pystr)) : pystr * Frame :=
  (py "Text",
   Frame_text
     match lines with
     | [] => [(None, py "No extractable content found.")]
     | _ :: _ => map (fun line => (Some (fst line), snd line)) lines
     end).

(** The Info sheet, when there is a ScanFlag: the note and the flagged page
    numbers in decimal, separated by a comma and a space. *)
Definition info_sheets (flags : list N) : Workbook :=
  match flags with
  | [] => []
  | _ :: _ =>
      [(py "Info",
        Frame_info
          (py "Some pages appear scanned (image-only). OCR recommended.")
          (join (py ", ") (map str_int flags)))]
  end.

(** The writer accepts every sheet of a book. *)
Definition accepts_all (excel_accepts : pystr -> Frame -> bool)
    (sheets : Workbook) : bool :=
  forallb (fun sheet => excel_accepts (fst sheet) (snd sheet)) sheets.

(** What a conversion gives that sends the given sheets to the writer, in
    this order: the book of these sheets, or the exception of the writer
    when it refuses one of them. *)
Definition written (excel_accepts : pystr -> Frame -> bool)
    (sheets : Workbook) : option (result Workbook) :=
  if accepts_all excel_accepts sheets then Some (Ok sheets) else Some Raised.

(** A document whose sheet names [p{page}_tbl{n}] all fit in 31 characters:
    fewer than 10^13 pages, fewer than 10^13 raw tables on each. *)
Definition small_document (pages : list Page) : Prop :=
  (N.of_nat (length pages) < 10 ^ 13)%N /\
  Forall (fun page => (N.of_nat (length (page_tables page)) < 10 ^ 13)%N) pages.

(** Every name is [p{i'}_tbl{n'}] for a page before [i], or for page [i]
    and a table up to [k]. *)
Definition tables_below (i k : N) (names : list pystr) : Prop :=
  forall s, In s names ->
    exists i' n', s = table_name i' n' /\ (i' < i \/ (i' = i /\ n' <= k))%N.

Definition starts_with_p (s : pystr) : Prop := exists r, s = 112%N :: r.

(** The loop of lines 111-134 over the surviving tables only. *)
Fixpoint write_kept (py_float : pystr -> bool)
    (excel_accepts : pystr -> Frame -> bool) (fuel : nat) (page_index : N)
    (st : Workbook * N * N) (kept : list (list Row))
    : option (result (Workbook * N * N)) :=
  match kept with
  | [] => Some (Ok st)
  | rows :: rest =>
      let '(wb, found, count) := st in
      let sheet := table_sheet page_index (count + 1) in
      match unique_sheet fuel (sheetnames wb) sheet sheet 2 with
      | Some sheet' =>
          match to_excel excel_accepts wb sheet' (table_frame py_float rows) with
          | Ok wb' =>
              write_kept py_float excel_accepts fuel page_index
                (wb', (found + 1)%N, (count + 1)%N) rest
          | Raised => Some Raised
          end
      | None => None
      end
  end.
(** What the converter keeps true from page to page. *)
Definition State_ok (st : State) : Prop :=
  NoDup (sheetnames (book st)) /\
  Forall starts_with_p (sheetnames (book st)) /\
  tables_found st = N.of_nat (length (book st)).

(** The state after a page, given what the table loop left. *)
Definition after_page (page_index : N) (page : Page) (st : State)
    (wb : Workbook) (found count : N) : State :=
  if (count =? 0)%N then
    {| book := wb;
       ocr_pages := ocr_pages st ++ scan_flags page_index [page];
       tables_found := found;
       text_rows := text_rows st ++ text_lines page_index page |}
  else
    {| book := wb; ocr_pages := ocr_pages st;
       tables_found := found; text_rows := text_rows st |}.
(** A 31-character name. *)
Definition long_name : pystr := repeat 97%N 31.

(** ** A sample document *)

Definition cell (s : string) : Cell := Some (py s).

Definition fruit_table : list Row :=
  [[cell "Name"; cell "Qty"]; [cell "Apple"; cell "3"]; [cell "Pear"; cell "5"]].

Definition report_table : list Row :=
  [[cell "Total Report"]; [cell "See attached narrative."]].

(** A page on which both extraction modes give [tables], with the given
    text, one word and no image. *)
Definition sample_page (tables : list (list Row)) (text : pystr) : Page :=
  {| find_tables := Ok (Some (map (@Ok (list Row)) tables));
     extract_tables := Ok (Some tables);
     extract_text := Ok (Some text);
     extract_words := Ok (Some [{| word_text := py "word" |}]);
     images := Ok (Some []) |}.

(** Two tables on page 1, one on page 2, two lines of text on page 3. *)
Definition scenario_document : list Page :=
  [sample_page [fruit_table; report_table] (py "Tables of page one");
   sample_page [fruit_table] [];
   sample_page [] (py "First line" ++ [10%N] ++ py "Second line")].

(** A page where nothing can be read. *)
Definition blank_page : Page :=
  {| find_tables := Raised;
     extract_tables := Raised;
     extract_text := Raised;
     extract_words := Raised;
     images := Raised |}.

(** [isNumeric]: the string of the cell, without its commas, is accepted by
    [float]; an absent cell is not numeric. *)
Definition is_numeric (py_float : pystr -> bool) (cell : Cell) : bool :=
  match cell with
  | None => false
  | Some s => py_float (remove_commas s)
  end.

(** The pool: every non-empty, non-absent cell of rows 1 to the end. *)
Definition pool (rows : list Row) : list Cell :=
  filter nonblank (concat (tl rows)).




(** A ragged raw table with a blank row and a blank column. *)
Definition ragged_table : list Row :=
  [[cell "a"; None; Some []];
   [None; None];
   [cell "b"; None; None; cell "c"]].

(** A page without words and with one image. *)
Definition scanned_page : Page :=
  {| find_tables := Ok (Some []);
     extract_tables := Ok (Some []);
     extract_text := Ok None;
     extract_words := Ok (Some []);
     images := Ok (Some [{| image_name := py "Im0" |}]) |}.

(** The non-empty cells of a table, row by row. *)
Definition nonblank_cells (rows : list Row) : list Cell :=
  filter nonblank (concat rows).

(** The sheets of the surviving tables of page [page_index], numbered from
    [k], when no name is taken. *)
Fixpoint number_sheets (py_float : pystr -> bool) (page_index k : N)
    (kept : list (list Row)) : Workbook :=
  match kept with
  | [] => []
  | rows :: rest =>
      (table_name page_index k, table_frame py_float rows)
      :: number_sheets py_float page_index (k + 1)%N rest
  end.

(** The table sheets of the pages from number [page_index] on. *)
Fixpoint table_sheets (py_float : pystr -> bool) (page_index : N)
    (pages : list Page) : Workbook :=
  match pages with
  | [] => []
  | page :: rest =>
      number_sheets py_float page_index 1 (surviving_tables page)
      ++ table_sheets py_float (page_index + 1)%N rest
  end.

(** The TextLines collected from the pages without a surviving table. *)
Fixpoint loose_text (page_index : N) (pages : list Page)
    : list (N * pystr) :=
  match pages with
  | [] => []
  | page :: rest =>
      match surviving_tables page with
      | [] => text_lines page_index page
      | _ :: _ => []
      end ++ loose_text (page_index + 1)%N rest
  end.

(** The ScanFlags collected from the pages without a surviving table. *)
Fixpoint loose_flags (page_index : N) (pages : list Page) : list N :=
  match pages with
  | [] => []
  | page :: rest =>
      match surviving_tables page with
      | [] => scan_flags page_index [page]
      | _ :: _ => []
      end ++ loose_flags (page_index + 1)%N rest
  end.

(** The Text sheet, when there is no table sheet. *)
Definition text_sheets (tables : Workbook) (lines : list (N * pystr))
    : Workbook :=
  match tables with
  | [] => [text_sheet lines]
  | _ :: _ => []
  end.

(** What opening an uploaded file gives: its pages, or the text of the
    exception of [pdfplumber.open]. *)
Inductive Opened : Type :=
| Unreadable (message : pystr)
| Readable (pages : list Page).

(** An uploaded file. *)
Record Upload := {
  upload_name : pystr;
  upload_opened : Opened
}.

Section Batch.

Variable py_float : pystr -> bool.
Variable excel_accepts : pystr -> Frame -> bool.

(** [str(e)] for the exception that leaves the conversion of a document
    that could be opened. *)
Variable exception_text : list Page -> pystr.

(** [os.path.splitext(name)[0]] *)
Variable splitext_root : pystr -> pystr.

(** [convert_pdf_to_excel_bytes(f.read(), f.name)] with line 94: the book,
    or the text of the exception raised. *)
Definition convert_upload (fuel : nat) (f : Upload)
    : option (pystr + Workbook) :=
  match upload_opened f with
  | Unreadable e => Some (inl e)
  | Readable pages =>
      match convert_pdf_to_excel_bytes py_float excel_accepts fuel pages with
      | Some (Ok wb) => Some (inr wb)
      | Some Raised => Some (inl (exception_text pages))
      | None => None
      end
  end.

(** [os.path.splitext(f.name)[0] + ".xlsx"] *)
Definition xlsx_name (f : Upload) : pystr :=
  splitext_root (upload_name f) ++ py ".xlsx".

(** [f"{f.name} ({e})"] *)
Definition failure_line (name e : pystr) : pystr :=
  name ++ py " (" ++ e ++ py ")".

(** Lines 216-226: the loop over the uploaded files, [zf] being the entries
    written to the archive so far and [failed] the failures so far. *)
Fixpoint batch (fuel : nat) (uploaded_files : list Upload)
    (zf : list (pystr * Workbook)) (failed : list pystr)
    : option (list (pystr * Workbook) * list pystr) :=
  match uploaded_files with
  | [] => Some (zf, failed)
  | f :: rest =>
      match convert_upload fuel f with
      | Some (inr excel) => batch fuel rest (zf ++ [(xlsx_name f, excel)]) failed
      | Some (inl e) =>
          batch fuel rest zf (failed ++ [failure_line (upload_name f) e])
      | None => None
      end
  end.

(** The file can be opened and its conversion gives a book. *)
Definition converts (fuel : nat) (f : Upload) : bool :=
  match upload_opened f with
  | Unreadable _ => false
  | Readable pages =>
      match convert_pdf_to_excel_bytes py_float excel_accepts fuel pages with
      | Some (Ok _) => true
      | _ => false
      end
  end.

(** The entry of [failed] for a file that could not be converted: its name
    and the text of the exception, of [pdfplumber.open] or of the
    conversion. *)
Definition failure_of (f : Upload) : pystr :=
  upload_name f ++ py " (" ++
  match upload_opened f with
  | Unreadable e => e
  | Readable pages => exception_text pages
  end ++ py ")".

End Batch.

(** A table with a control character in a cell. *)
Definition control_table : list Row :=
  [[cell "Name"; cell "Qty"]; [Some (py "Apple" ++ [1%N]); cell "3"]].

(** Four uploads: two that are converted, one that cannot be opened and
    one with a table that the writer refuses. *)
Definition sample_uploads : list Upload :=
  [{| upload_name := py "a.pdf"; upload_opened := Readable scenario_document |};
   {| upload_name := py "broken.pdf";
      upload_opened := Unreadable (py "No /Root object!") |};
   {| upload_name := py "control.pdf";
      upload_opened := Readable [sample_page [control_table] []] |};
   {| upload_name := py "b.pdf";
      upload_opened := Readable [scanned_page] |}].

(** An exception text for the samples. *)
Definition sample_exception_text (pages : list Page) : pystr :=
  py "cannot be used in worksheets.".

(** A root function for the samples: the name without its last four
    characters. *)
Definition drop_extension (name : pystr) : pystr :=
  firstn (length name - 4) name.

(** A header row with an absent cell. *)
Definition gap_table : list Row :=
  [[cell "Name"; None]; [cell "Apple"; cell "3"]].

(** A name that is cut after a space: thirty letters, a space, three more
    letters. *)
Definition cut_name : pystr := repeat 97%N 30 ++ py " bcd".

(** Two pages of text around a page that looks scanned. *)
Definition text_document : list Page :=
  [sample_page [] (py "First line" ++ [10%N] ++ py "  Second line ");
   scanned_page;
   sample_page [] (py "Last line")].

(** A page where [find_tables] finds two tables and [extract()] raises for
    the second, while [extract_tables] gives one table. *)
Definition half_failed_page : Page :=
  {| find_tables := Ok (Some [Ok fruit_table; Raised]);
     extract_tables := Ok (Some [report_table]);
     extract_text := Ok None;
     extract_words := Ok (Some []);
     images := Ok (Some []) |}.

(* ================================================================= *)
(** * Properties *)

(** ** Sheet names *)

Lemma char_in_In (c : N) (table : list N) :
  char_in c table = true <-> In c table.
Proof.
  unfold char_in. rewrite existsb_exists. split.
  - intros (x & Hx & He). apply N.eqb_eq in He. now subst.
  - intros H. exists c. split; [assumption | apply N.eqb_refl].
Qed.

Lemma space_not_forbidden : forbidden space = false.
Proof. reflexivity. Qed.

Lemma sub_forbidden_clean (name : pystr) :
  Forall (fun c => forbidden c = false) (sub_forbidden name).
Proof.
  unfold sub_forbidden. apply Forall_forall. intros c Hc.
  apply in_map_iff in Hc. destruct Hc as (x & Hx & _).
  destruct (forbidden x) eqn:E; subst; [apply space_not_forbidden | exact E].
Qed.

Lemma sub_ws_runs_Forall (P : N -> Prop) (name : pystr) :
  P space -> Forall P name -> forall b, Forall P (sub_ws_runs b name).
Proof.
  intros Hs H. induction H as [|c rest Hc _ IH]; intros b; simpl.
  - constructor.
  - destruct (isspace c); [destruct b|]; auto.
Qed.

Lemma lstrip_Forall (P : N -> Prop) (s : pystr) :
  Forall P s -> Forall P (lstrip s).
Proof.
  induction 1 as [|c rest Hc H IH]; simpl; [constructor|].
  destruct (isspace c); auto.
Qed.

Lemma Forall_rev_iff {A} (P : A -> Prop) (l : list A) :
  Forall P l -> Forall P (rev l).
Proof.
  intros H. apply Forall_forall. intros x Hx.
  apply in_rev in Hx. revert x Hx. now apply Forall_forall.
Qed.

Lemma strip_Forall (P : N -> Prop) (s : pystr) :
  Forall P s -> Forall P (strip s).
Proof.
  intros H. unfold strip, rstrip.
  apply Forall_rev_iff, lstrip_Forall, Forall_rev_iff, lstrip_Forall, H.
Qed.

Lemma firstn_Forall {A} (P : A -> Prop) (n : nat) (l : list A) :
  Forall P l -> Forall P (firstn n l).
Proof.
  intros H. rewrite <- (firstn_skipn n l) in H.
  now apply Forall_app in H.
Qed.

Lemma sanitize_Forall (P : N -> Prop) (name : pystr) :
  P space -> Forall P (py "Sheet") ->
  Forall P (sub_forbidden name) -> Forall P (sanitize_sheet_name name).
Proof.
  intros Hs Hsheet H. unfold sanitize_sheet_name.
  destruct (truthy _); [|exact Hsheet].
  now apply firstn_Forall, strip_Forall, sub_ws_runs_Forall.
Qed.

Lemma sanitize_clean (name : pystr) :
  Forall (fun c => forbidden c = false) (sanitize_sheet_name name).
Proof.
  apply sanitize_Forall.
  - reflexivity.
  - repeat constructor.
  - apply sub_forbidden_clean.
Qed.

Lemma sanitize_length (name : pystr) :
  length (sanitize_sheet_name name) <= 31.
Proof.
  unfold sanitize_sheet_name. destruct (truthy _).
  - apply firstn_le_length.
  - simpl. lia.
Qed.

Lemma sanitize_nonempty (name : pystr) : sanitize_sheet_name name <> [].
Proof.
  unfold sanitize_sheet_name.
  destruct (strip _) as [|c s]; simpl; discriminate.
Qed.

(** C6. For every input string, [sanitize_sheet_name] returns a string of at
    most 31 characters, which is not empty (it is the literal ["Sheet"] when
    the cleaned name is empty) and holds none of [: \ / ? * [ ]]. *)
Theorem sanitize_sheet_name_valid (name : pystr) :
  let out := sanitize_sheet_name name in
  length out <= 31 /\
  out <> [] /\
  (forall c, In c (py ":\/?*[]") -> ~ In c out) /\
  (strip (sub_ws_runs false (sub_forbidden name)) = [] -> out = py "Sheet").
Proof.
  cbv zeta. repeat split.
  - apply sanitize_length.
  - apply sanitize_nonempty.
  - intros c Hc Hin.
    pose proof (sanitize_clean name) as H.
    rewrite Forall_forall in H. specialize (H c Hin).
    assert (forbidden c = true) by (apply char_in_In; exact Hc).
    congruence.
  - intros E. unfold sanitize_sheet_name. now rewrite E.
Qed.

(** ** The Row Normalizer *)

Lemma original_or_padding_nth (row : Row) (c : nat) :
  original_or_padding row c = nth c row None.
Proof.
  unfold original_or_padding. revert c.
  induction row as [|x row IH]; intros [|c]; simpl; auto.
Qed.

Lemma getitem_pad_row (max_len : nat) (row : Row) (c : nat) :
  getitem (pad_row max_len row) c = original_or_padding row c.
Proof.
  rewrite original_or_padding_nth. unfold getitem, pad_row.
  destruct (Nat.lt_ge_cases c (length row)) as [H|H].
  - now rewrite app_nth1.
  - rewrite app_nth2 by exact H. rewrite nth_repeat.
    now rewrite nth_overflow.
Qed.

Lemma original_or_padding_overflow (row : Row) (c : nat) :
  length row <= c -> original_or_padding row c = None.
Proof.
  intros H. rewrite original_or_padding_nth. now apply nth_overflow.
Qed.

(** A cell that is not blank makes its row not blank. *)
Lemma nonblank_cell_row (row : Row) (c : nat) :
  nonblank (original_or_padding row c) = true -> existsb nonblank row = true.
Proof.
  intros H. apply existsb_exists. exists (original_or_padding row c).
  split; [|exact H].
  rewrite original_or_padding_nth in *.
  destruct (Nat.lt_ge_cases c (length row)) as [L|L].
  - now apply nth_In.
  - rewrite nth_overflow in H by exact L. discriminate.
Qed.

Lemma nonblank_row_cell (row : Row) :
  existsb nonblank row = true ->
  exists c, c < length row /\ nonblank (original_or_padding row c) = true.
Proof.
  intros H. apply existsb_exists in H. destruct H as (x & Hin & Hx).
  destruct (In_nth _ _ None Hin) as (c & Hc & E).
  exists c. split; [exact Hc|]. rewrite original_or_padding_nth. subst x. exact Hx.
Qed.

Lemma column_used_filter (raw : list Row) (c : nat) :
  column_used (filter (existsb nonblank) raw) c = column_used raw c.
Proof.
  unfold column_used. induction raw as [|row raw IH]; simpl; [reflexivity|].
  destruct (existsb nonblank row) eqn:E; simpl; rewrite IH; [reflexivity|].
  destruct (nonblank (original_or_padding row c)) eqn:F; [|reflexivity].
  apply nonblank_cell_row in F. congruence.
Qed.

Lemma column_used_In (rows : list Row) (c : nat) :
  column_used rows c = true <->
  exists row, In row rows /\ nonblank (original_or_padding row c) = true.
Proof. unfold column_used. apply existsb_exists. Qed.

Lemma length_le_list_max (rows : list Row) (row : Row) :
  In row rows -> length row <= list_max (map (@length Cell) rows).
Proof.
  intros H.
  assert (L : list_max (map (@length Cell) rows) <= list_max (map (@length Cell) rows))
    by apply Nat.le_refl.
  rewrite list_max_le in L. rewrite Forall_forall in L.
  apply L. now apply in_map.
Qed.

Lemma column_used_bound (rows : list Row) (c : nat) :
  column_used rows c = true -> c < list_max (map (@length Cell) rows).
Proof.
  intros H. apply column_used_In in H. destruct H as (row & Hin & Hc).
  apply length_le_list_max in Hin.
  destruct (Nat.lt_ge_cases c (length row)) as [L|L]; [lia|].
  rewrite original_or_padding_overflow in Hc by exact L. discriminate.
Qed.

Lemma filter_none {A} (f : A -> bool) (l : list A) :
  (forall x, In x l -> f x = false) -> filter f l = [].
Proof.
  induction l as [|x l IH]; simpl; intros H; [reflexivity|].
  rewrite (H x) by now left. apply IH. intros y Hy. apply H. now right.
Qed.

Lemma filter_all {A} (f : A -> bool) (l : list A) :
  (forall x, In x l -> f x = true) -> filter f l = l.
Proof.
  induction l as [|x l IH]; simpl; intros H; [reflexivity|].
  rewrite (H x) by now left. f_equal. apply IH. intros y Hy. apply H. now right.
Qed.

Lemma filter_seq_beyond (f : nat -> bool) (m n : nat) :
  (forall c, f c = true -> c < m) -> m <= n ->
  filter f (seq 0 n) = filter f (seq 0 m).
Proof.
  intros Hf Hmn. replace n with (m + (n - m)) by lia.
  rewrite seq_app, filter_app. simpl.
  rewrite (@filter_none _ f (seq m (n - m))); [now rewrite app_nil_r|].
  intros c Hc. apply in_seq in Hc.
  destruct (f c) eqn:E; [|reflexivity]. apply Hf in E. lia.
Qed.

Lemma list_max_filter_le (f : Row -> bool) (rows : list Row) :
  list_max (map (@length Cell) (filter f rows)) <= list_max (map (@length Cell) rows).
Proof.
  apply list_max_le, Forall_forall. intros n Hn.
  apply in_map_iff in Hn. destruct Hn as (row & <- & Hin).
  apply filter_In in Hin. apply length_le_list_max, Hin.
Qed.

Lemma existsb_map_ext {A B} (f : B -> bool) (g : A -> B) (h : A -> bool)
    (l : list A) :
  (forall x, f (g x) = h x) -> existsb f (map g l) = existsb h l.
Proof.
  intros H. induction l as [|x l IH]; simpl; [reflexivity|].
  now rewrite H, IH.
Qed.

(** The columns the code keeps are the surviving columns of the raw table. *)
Lemma cols_to_keep_surviving (raw : list Row) :
  let rows := filter (existsb nonblank) raw in
  let max_len := list_max (map (@length Cell) rows) in
  cols_to_keep max_len (map (pad_row max_len) rows) = surviving_columns raw.
Proof.
  cbv zeta. unfold cols_to_keep, surviving_columns.
  set (rows := filter (existsb nonblank) raw).
  set (max_len := list_max (map (@length Cell) rows)).
  rewrite (@filter_seq_beyond (column_used raw) max_len).
  - apply filter_ext. intros c. unfold rows at 1.
    rewrite <- (column_used_filter raw c). fold rows.
    unfold column_used. apply existsb_map_ext.
    intros row. now rewrite getitem_pad_row.
  - intros c Hc. rewrite <- column_used_filter in Hc.
    now apply column_used_bound.
  - apply list_max_filter_le.
Qed.

(** Every index used by line 64 is within the padded rows. *)
Lemma cols_to_keep_in_range (max_len : nat) (rows : list Row) (c : nat) :
  In c (cols_to_keep max_len rows) -> c < max_len.
Proof.
  unfold cols_to_keep. intros H. apply filter_In in H.
  destruct H as (H & _). apply in_seq in H. lia.
Qed.

(** What [clean_table_data] returns, in terms of the raw table alone. *)
Lemma clean_table_data_eq (raw : list Row) :
  clean_table_data raw =
  map (fun row => map (original_or_padding row) (surviving_columns raw))
      (filter (existsb nonblank) raw).
Proof.
  unfold clean_table_data. destruct raw as [|r0 raw0]; [reflexivity|].
  set (raw := r0 :: raw0).
  destruct (filter (existsb nonblank) raw) as [|k0 kept0] eqn:E; [reflexivity|].
  rewrite <- E.
  pose proof (cols_to_keep_surviving raw) as K. cbv zeta in K. rewrite K.
  rewrite map_map. apply map_ext. intros row.
  apply map_ext. intros c. apply getitem_pad_row.
Qed.

Lemma surviving_columns_sorted (raw : list Row) :
  StronglySorted lt (surviving_columns raw).
Proof.
  unfold surviving_columns.
  generalize (list_max (map (@length Cell) raw)) as n.
  generalize 0 as s. intros s n. revert s.
  induction n as [|n IH]; intros s; simpl; [constructor|].
  destruct (column_used raw s).
  - constructor; [apply IH|]. apply Forall_forall. intros c Hc.
    apply filter_In in Hc. destruct Hc as (Hc & _). apply in_seq in Hc. lia.
  - apply IH.
Qed.

Lemma surviving_columns_used (raw : list Row) (c : nat) :
  In c (surviving_columns raw) <-> column_used raw c = true.
Proof.
  unfold surviving_columns. rewrite filter_In, in_seq. split.
  - tauto.
  - intros H. split; [|exact H]. apply column_used_bound in H. lia.
Qed.

Lemma clean_table_data_row (raw : list Row) (row' : Row) :
  In row' (clean_table_data raw) <->
  exists row, In row raw /\ existsb nonblank row = true /\
              row' = map (original_or_padding row) (surviving_columns raw).
Proof.
  rewrite clean_table_data_eq, in_map_iff. split.
  - intros (row & E & Hin). apply filter_In in Hin. exists row. intuition.
  - intros (row & Hin & Hb & E). exists row. split; [now symmetry|].
    apply filter_In. now split.
Qed.

Lemma original_or_padding_map (row : Row) (cols : list nat) (j : nat) :
  j < length cols ->
  original_or_padding (map (original_or_padding row) cols) j =
  original_or_padding row (nth j cols 0).
Proof.
  intros H. unfold original_or_padding at 1.
  rewrite nth_error_map, (nth_error_nth' cols 0 H). reflexivity.
Qed.

Lemma clean_table_data_invariant (raw : list Row) :
  Grid_invariant (length (surviving_columns raw)) (clean_table_data raw).
Proof.
  repeat split.
  - apply Forall_forall. intros row' H. apply clean_table_data_row in H.
    destruct H as (row & _ & _ & ->). apply length_map.
  - apply Forall_forall. intros row' H. apply clean_table_data_row in H.
    destruct H as (row & Hin & Hb & ->).
    unfold all_blank. apply negb_false_iff.
    destruct (nonblank_row_cell row Hb) as (c & _ & Hc).
    apply existsb_exists. exists (original_or_padding row c). split; [|exact Hc].
    apply in_map. apply surviving_columns_used.
    apply column_used_In. now exists row.
  - intros _ j Hj.
    assert (Hc : In (nth j (surviving_columns raw) 0) (surviving_columns raw))
      by now apply nth_In.
    apply surviving_columns_used, column_used_In in Hc.
    destruct Hc as (row & Hin & Hc).
    apply column_used_In.
    exists (map (original_or_padding row) (surviving_columns raw)). split.
    + apply clean_table_data_row. exists row. repeat split; [exact Hin|].
      now apply nonblank_cell_row in Hc.
    + now rewrite original_or_padding_map.
Qed.

Lemma map_original_seq (row : Row) :
  map (original_or_padding row) (seq 0 (length row)) = row.
Proof.
  induction row as [|x row IH]; [reflexivity|].
  simpl length. rewrite <- cons_seq, <- seq_shift. simpl.
  rewrite map_map. unfold original_or_padding at 1. simpl. f_equal.
  exact IH.
Qed.

Lemma list_max_const (w : nat) (g : list Row) :
  g <> [] -> Forall (fun row => length row = w) g ->
  list_max (map (@length Cell) g) = w.
Proof.
  intros Hne H. induction H as [|row g Hrow H IH]; [now elim Hne|].
  simpl. rewrite Hrow. destruct g as [|r g'].
  - simpl. lia.
  - rewrite IH by discriminate. lia.
Qed.

(** A grid that satisfies the invariant is left as it is. *)
Lemma clean_table_data_fixpoint (w : nat) (g : list Row) :
  Grid_invariant w g -> clean_table_data g = g.
Proof.
  intros (Hlen & Hrows & Hcols).
  destruct g as [|r0 g0]; [reflexivity|]. set (g := r0 :: g0) in *.
  assert (Hne : g <> []) by discriminate.
  rewrite clean_table_data_eq.
  rewrite filter_all.
  2:{ intros row Hin. rewrite Forall_forall in Hrows.
      specialize (Hrows row Hin). unfold all_blank in Hrows.
      now apply negb_false_iff in Hrows. }
  assert (Hs : surviving_columns g = seq 0 w).
  { unfold surviving_columns. rewrite (list_max_const Hne Hlen).
    apply filter_all. intros c Hc. apply in_seq in Hc.
    apply Hcols; [exact Hne | lia]. }
  rewrite Hs. rewrite <- (map_id g) at 2. apply map_ext_in.
  intros row Hin. rewrite Forall_forall in Hlen.
  rewrite <- (Hlen row Hin). apply map_original_seq.
Qed.


(** C5. Normalisation is idempotent: [clean_table_data] applied to its own
    result gives the same grid. *)
Theorem clean_table_data_idempotent (g : list Row) :
  clean_table_data (clean_table_data g) = clean_table_data g.
Proof.
  apply (clean_table_data_fixpoint (clean_table_data_invariant g)).
Qed.

(** C10. Every cell of the grid that [clean_table_data] returns is the cell
    of the same raw row at the same raw column, unchanged, or an absent cell
    standing for a column beyond the end of that row: the grid is the raw
    rows that are not blank, in order, each read at the surviving columns,
    in ascending order. *)
Theorem clean_table_data_cells (raw : list Row) :
  let cols := surviving_columns raw in
  StronglySorted lt cols /\
  clean_table_data raw =
    map (fun row => map (original_or_padding row) cols)
        (filter (fun row => negb (all_blank row)) raw) /\
  (forall row c, original_or_padding row c =
                 if c <? length row then nth c row None else None).
Proof.
  cbv zeta. split; [apply surviving_columns_sorted|]. split.
  - rewrite clean_table_data_eq. f_equal. apply filter_ext.
    intros row. unfold all_blank. now rewrite negb_involutive.
  - intros row c. rewrite original_or_padding_nth.
    destruct (Nat.ltb_spec c (length row)) as [L|L]; [reflexivity|].
    now apply nth_overflow.
Qed.

(** ** The Scan Detector *)

(** C8. [looks_scanned] returns, and returns true exactly when the page
    gives no words and at least one image; when reading the words or the
    images raises, it returns false. *)
Theorem looks_scanned_iff (page : Page) :
  exists b,
    looks_scanned page = Ok b /\
    (b = true <->
     exists words imgs,
       extract_words page = Ok words /\ length (or_empty words) = 0 /\
       images page = Ok imgs /\ 0 < length (or_empty imgs)) /\
    (extract_words page = Raised -> b = false) /\
    (images page = Raised -> b = false).
Proof.
  unfold looks_scanned.
  destruct (extract_words page) as [w|] eqn:Ew; simpl.
  - destruct (Nat.eqb_spec (length (or_empty w)) 0) as [L|L].
    + destruct (images page) as [i|] eqn:Ei; simpl.
      * exists (0 <? length (or_empty i)). repeat split; try discriminate.
        -- intros H. exists w, i. apply Nat.ltb_lt in H. auto.
        -- intros (w' & i' & Hw & _ & Hi & Hl).
           inversion Hi; subst. now apply Nat.ltb_lt.
      * exists false. repeat split; try discriminate; try reflexivity.
        intros (w' & i' & _ & _ & Hi & _). discriminate.
    + exists false. repeat split; try discriminate; try reflexivity.
      intros (w' & i' & Hw & Hl & _). inversion Hw; subst. contradiction.
  - exists false. repeat split; try discriminate; try reflexivity.
    intros (w' & i' & Hw & _). discriminate.
Qed.

(** ** Table extraction of one page *)

Lemma looks_scanned_ok (page : Page) : exists b, looks_scanned page = Ok b.
Proof.
  unfold looks_scanned.
  destruct (extract_words page) as [w|]; simpl; [|now exists false].
  destruct (length (or_empty w) =? 0); [|now exists false].
  destruct (images page) as [i|]; simpl; eauto.
Qed.

Lemma page_text_ok (page : Page) : exists txt, page_text page = Ok txt.
Proof.
  unfold page_text. destruct (extract_text page); simpl; eauto.
Qed.

Lemma extracted_tables_modes (page : Page) :
  extracted_tables page =
  try_except (primary_mode page) (try_except (secondary_mode page) (Ok [])).
Proof.
  unfold extracted_tables, primary_mode, secondary_mode.
  destruct (find_tables page) as [[[|t ts]|]|]; reflexivity.
Qed.

Lemma extracted_tables_ok (page : Page) :
  exists tables, extracted_tables page = Ok tables.
Proof.
  rewrite extracted_tables_modes.
  destruct (primary_mode page); simpl; eauto.
  destruct (secondary_mode page); simpl; eauto.
Qed.


(** ** Decimal digits *)

Lemma str_int_aux_value (fuel : nat) : forall n acc,
  (n < 2 ^ N.of_nat fuel)%N ->
  fold_left (fun a c => (a * 10 + (c - 48))%N) (str_int_aux fuel n acc) 0%N =
  fold_left (fun a c => (a * 10 + (c - 48))%N) acc n.
Proof.
  induction fuel as [|f IH]; intros n acc H.
  - change (N.of_nat 0) with 0%N in H. rewrite N.pow_0_r in H.
    assert (n = 0%N) by lia. subst. reflexivity.
  - cbn [str_int_aux]. cbv zeta.
    pose proof (N.div_mod n 10 ltac:(lia)) as D.
    destruct (N.eqb_spec (n / 10) 0) as [E|E].
    + cbn [fold_left]. f_equal.
      revert D E. generalize (n / 10)%N (n mod 10)%N. lia.
    + rewrite IH.
      * cbn [fold_left]. f_equal.
        revert D. generalize (n / 10)%N (n mod 10)%N. lia.
      * rewrite Nat2N.inj_succ, N.pow_succ_r' in H.
        apply N.Div0.div_lt_upper_bound. lia.
Qed.

Lemma int_of_digits_str_int (n : N) : int_of_digits (str_int n) = n.
Proof.
  unfold int_of_digits, str_int. rewrite str_int_aux_value; [reflexivity|].
  rewrite N2Nat.id. apply N.size_gt.
Qed.

Lemma str_int_inj (n m : N) : str_int n = str_int m -> n = m.
Proof.
  intros H. rewrite <- (int_of_digits_str_int n), H.
  apply int_of_digits_str_int.
Qed.

Lemma str_int_aux_digits (fuel : nat) : forall n acc,
  Forall (fun c => is_digit c = true) acc ->
  Forall (fun c => is_digit c = true) (str_int_aux fuel n acc).
Proof.
  assert (D : forall n, is_digit (48 + n mod 10) = true).
  { intros n. pose proof (N.mod_lt n 10 ltac:(lia)) as M. revert M.
    generalize (n mod 10)%N. intros r M.
    unfold is_digit. apply andb_true_iff. split; apply N.leb_le; lia. }
  induction fuel as [|f IH]; intros n acc H; cbn [str_int_aux]; cbv zeta.
  - constructor; auto.
  - destruct (n / 10 =? 0)%N; [constructor; auto|].
    apply IH. constructor; auto.
Qed.

Lemma str_int_digits (n : N) : Forall (fun c => is_digit c = true) (str_int n).
Proof. apply str_int_aux_digits. constructor. Qed.

Lemma str_int_aux_length (fuel : nat) : forall n acc d,
  (n < 10 ^ N.of_nat d)%N -> 1 <= d ->
  length (str_int_aux fuel n acc) <= d + length acc.
Proof.
  induction fuel as [|f IH]; intros n acc d H Hd; cbn [str_int_aux]; cbv zeta.
  - simpl. lia.
  - destruct (N.eqb_spec (n / 10) 0) as [E|E]; [simpl; lia|].
    destruct d as [|[|d]]; [lia| |].
    + exfalso. apply E. apply N.div_small. exact H.
    + etransitivity; [apply (IH _ _ (S d))|simpl; lia]; [|lia].
      rewrite (Nat2N.inj_succ (S d)), N.pow_succ_r' in H.
      apply N.Div0.div_lt_upper_bound. lia.
Qed.

Lemma str_int_length (n : N) (d : nat) :
  (n < 10 ^ N.of_nat d)%N -> 1 <= d -> length (str_int n) <= d.
Proof.
  intros H Hd. unfold str_int.
  pose proof (@str_int_aux_length (N.to_nat (N.size n)) n [] d H Hd) as L.
  simpl in L. lia.
Qed.

Lemma str_int_aux_nonempty (fuel : nat) : forall n acc,
  str_int_aux fuel n acc <> [].
Proof.
  induction fuel as [|f IH]; intros n acc; cbn [str_int_aux]; cbv zeta.
  - discriminate.
  - destruct (n / 10 =? 0)%N; [discriminate | apply IH].
Qed.

Lemma str_int_nonempty (n : N) : str_int n <> [].
Proof. apply str_int_aux_nonempty. Qed.

(** ** Strings that [sanitize_sheet_name] does not change *)

Lemma sub_ws_runs_single_spaced (s : pystr) : forall b,
  single_spaced b (sub_ws_runs b s) = true.
Proof.
  induction s as [|c rest IH]; intros b; simpl; [reflexivity|].
  destruct (isspace c) eqn:E.
  - destruct b; [apply IH|]. simpl. apply IH.
  - simpl. rewrite E. apply IH.
Qed.

Lemma single_spaced_fixed (s : pystr) : forall b,
  single_spaced b s = true -> sub_ws_runs b s = s.
Proof.
  induction s as [|c rest IH]; intros b H; simpl in *; [reflexivity|].
  destruct (isspace c) eqn:E.
  - apply andb_true_iff in H. destruct H as (H & H3).
    apply andb_true_iff in H. destruct H as (H1 & H2).
    apply negb_true_iff in H1. apply N.eqb_eq in H2. subst b c.
    f_equal. now apply IH.
  - f_equal. now apply IH.
Qed.

Lemma single_spaced_weaken (s : pystr) (b : bool) :
  single_spaced b s = true -> single_spaced false s = true.
Proof.
  destruct s as [|c rest]; simpl; [reflexivity|].
  destruct (isspace c); [|trivial]. destruct b; [discriminate | trivial].
Qed.

Lemma single_spaced_lstrip (s : pystr) : forall b b',
  single_spaced b s = true -> single_spaced b' (lstrip s) = true.
Proof.
  induction s as [|c rest IH]; intros b b' H; simpl in *; [reflexivity|].
  destruct (isspace c) eqn:E.
  - apply andb_true_iff in H. destruct H as (_ & H). now apply (IH true).
  - simpl. now rewrite E.
Qed.

Lemma single_spaced_prefix (l r : pystr) : forall b,
  single_spaced b (l ++ r) = true -> single_spaced b l = true.
Proof.
  induction l as [|c l IH]; intros b H; simpl in *; [reflexivity|].
  destruct (isspace c).
  - apply andb_true_iff in H. destruct H as (H1 & H2).
    rewrite H1. now apply IH.
  - now apply IH.
Qed.

Lemma single_spaced_app (l r : pystr) : forall b,
  single_spaced b l = true -> Forall (fun c => isspace c = false) r ->
  single_spaced b (l ++ r) = true.
Proof.
  induction l as [|c l IH]; intros b H Hr; simpl in *.
  - clear H. revert b. induction Hr as [|c r Hc _ IHr]; intros b; simpl;
      [reflexivity|]. rewrite Hc. apply IHr.
  - destruct (isspace c).
    + apply andb_true_iff in H. destruct H as (H1 & H2).
      rewrite H1. now apply IH.
    + now apply IH.
Qed.

Lemma lstrip_suffix (s : pystr) : exists p, s = p ++ lstrip s.
Proof.
  induction s as [|c rest (p & IH)]; simpl; [now exists []|].
  destruct (isspace c); [|now exists []].
  exists (c :: p). simpl. now f_equal.
Qed.

Lemma rstrip_prefix (s : pystr) : exists t, s = rstrip s ++ t.
Proof.
  unfold rstrip. destruct (lstrip_suffix (rev s)) as (p & E).
  exists (rev p). rewrite <- rev_app_distr, <- E. symmetry. apply rev_involutive.
Qed.

Lemma lstrip_head (s : pystr) :
  match lstrip s with [] => True | c :: _ => isspace c = false end.
Proof.
  induction s as [|c rest IH]; simpl; [trivial|].
  destruct (isspace c) eqn:E; [exact IH | exact E].
Qed.

Lemma lstrip_fixed (c : N) (s : pystr) :
  isspace c = false -> lstrip (c :: s) = c :: s.
Proof. intros H. simpl. now rewrite H. Qed.

Lemma rstrip_last (s : pystr) :
  match rev (rstrip s) with [] => True | c :: _ => isspace c = false end.
Proof. unfold rstrip. rewrite rev_involutive. apply lstrip_head. Qed.

(** A stripped string has no whitespace at either end. *)
Lemma strip_ends (s : pystr) :
  lstrip (strip s) = strip s /\ lstrip (rev (strip s)) = rev (strip s).
Proof.
  split.
  - unfold strip. pose proof (lstrip_head s) as H.
    destruct (rstrip_prefix (lstrip s)) as (t & E).
    destruct (rstrip (lstrip s)) as [|c r]; [reflexivity|].
    rewrite E in H. simpl in H. now apply lstrip_fixed.
  - pose proof (rstrip_last (lstrip s)) as H. fold (strip s) in H.
    destruct (rev (strip s)) as [|c r]; [reflexivity|].
    now apply lstrip_fixed.
Qed.

Lemma sub_forbidden_fixed (s : pystr) :
  Forall (fun c => forbidden c = false) s -> sub_forbidden s = s.
Proof.
  unfold sub_forbidden. induction 1 as [|c s Hc _ IH]; simpl; [reflexivity|].
  now rewrite Hc, IH.
Qed.

Lemma strip_fixed (s : pystr) :
  lstrip s = s -> lstrip (rev s) = rev s -> strip s = s.
Proof.
  intros H1 H2. unfold strip, rstrip. rewrite H1, H2. apply rev_involutive.
Qed.

(** On a string already in the shape it produces, [sanitize_sheet_name]
    only truncates. *)
Lemma sanitize_fixed (s : pystr) :
  Forall (fun c => forbidden c = false) s ->
  single_spaced false s = true ->
  lstrip s = s -> lstrip (rev s) = rev s -> s <> [] ->
  sanitize_sheet_name s = firstn 31 s.
Proof.
  intros Hf Hs H1 H2 Hne. unfold sanitize_sheet_name.
  rewrite sub_forbidden_fixed by exact Hf.
  rewrite single_spaced_fixed by exact Hs.
  rewrite strip_fixed by assumption.
  destruct s; [congruence | reflexivity].
Qed.

Lemma plain_iff (c : N) :
  plain c = true <-> isspace c = false /\ forbidden c = false.
Proof.
  unfold plain. rewrite andb_true_iff, !negb_true_iff. tauto.
Qed.

Lemma single_spaced_plain (s : pystr) (b : bool) :
  Forall (fun c => isspace c = false) s -> single_spaced b s = true.
Proof. intros H. now apply (@single_spaced_app [] s b). Qed.

Lemma sanitize_plain (s : pystr) :
  Forall (fun c => plain c = true) s -> s <> [] ->
  sanitize_sheet_name s = firstn 31 s.
Proof.
  intros H Hne.
  assert (Hw : Forall (fun c => isspace c = false) s).
  { eapply Forall_impl; [|exact H]. intros c Hc. now apply plain_iff in Hc. }
  apply sanitize_fixed; trivial.
  - eapply Forall_impl; [|exact H]. intros c Hc. now apply plain_iff in Hc.
  - now apply single_spaced_plain.
  - destruct s as [|c r]; [reflexivity|]. apply lstrip_fixed.
    now inversion Hw.
  - apply Forall_rev_iff in Hw. destruct (rev s) as [|c r]; [reflexivity|].
    apply lstrip_fixed. now inversion Hw.
Qed.

(** What [sanitize_sheet_name] returns is in the shape it produces. *)
Lemma sanitize_shape (name : pystr) :
  let s := sanitize_sheet_name name in
  single_spaced false s = true /\ lstrip s = s.
Proof.
  cbv zeta. unfold sanitize_sheet_name.
  set (t := strip (sub_ws_runs false (sub_forbidden name))).
  destruct (truthy t) eqn:T; [|split; reflexivity].
  assert (St : single_spaced false t = true).
  { unfold t, strip.
    destruct (rstrip_prefix (lstrip (sub_ws_runs false (sub_forbidden name))))
      as (r & E).
    apply single_spaced_prefix with (r := r). rewrite <- E.
    apply single_spaced_lstrip with (b := false), sub_ws_runs_single_spaced. }
  destruct (strip_ends (sub_ws_runs false (sub_forbidden name))) as (L & _).
  fold t in L. split.
  - apply single_spaced_prefix with (r := skipn 31 t). now rewrite firstn_skipn.
  - destruct t as [|c r]; [discriminate|].
    pose proof (lstrip_head (c :: r)) as Hh. rewrite L in Hh.
    simpl firstn. now apply lstrip_fixed.
Qed.

(** Appending plain characters to a sanitized name and sanitizing again
    only truncates. *)
Lemma sanitize_append (name t : pystr) :
  Forall (fun c => plain c = true) t -> t <> [] ->
  sanitize_sheet_name (sanitize_sheet_name name ++ t) =
  firstn 31 (sanitize_sheet_name name ++ t).
Proof.
  intros Ht Hne. destruct (sanitize_shape name) as (Hs & Hl). cbv zeta in *.
  pose proof (sanitize_nonempty name) as Hb.
  pose proof (sanitize_clean name) as Hc.
  set (base := sanitize_sheet_name name) in *.
  assert (Hw : Forall (fun c => isspace c = false) t).
  { eapply Forall_impl; [|exact Ht]. intros c Hp. now apply plain_iff in Hp. }
  apply sanitize_fixed.
  - apply Forall_app. split; [exact Hc|].
    eapply Forall_impl; [|exact Ht]. intros c Hp. now apply plain_iff in Hp.
  - now apply single_spaced_app.
  - destruct base as [|c r]; [congruence|].
    pose proof (lstrip_head (c :: r)) as Hh. rewrite Hl in Hh.
    simpl app. now apply lstrip_fixed.
  - rewrite rev_app_distr. apply Forall_rev_iff in Hw.
    destruct (rev t) as [|c r] eqn:E.
    + apply (f_equal (@rev N)) in E. rewrite rev_involutive in E. now subst.
    + simpl app. apply lstrip_fixed. now inversion Hw.
  - destruct base; [congruence | discriminate].
Qed.

(** ** The loop that makes a sheet name unique *)

Lemma unique_sheet_fresh (fuel : nat) (names : list pystr)
    (base sheet : pystr) (suffix : N) :
  ~ In sheet names -> unique_sheet fuel names base sheet suffix = Some sheet.
Proof.
  intros H. destruct fuel; simpl;
    destruct (in_dec pystr_eq_dec sheet names); tauto.
Qed.

Lemma unique_sheet_not_in (fuel : nat) (names : list pystr) (base : pystr) :
  forall sheet suffix s,
    unique_sheet fuel names base sheet suffix = Some s -> ~ In s names.
Proof.
  induction fuel as [|f IH]; intros sheet suffix s; simpl;
    destruct (in_dec pystr_eq_dec sheet names) as [i|n].
  - discriminate.
  - now intros [= <-].
  - apply IH.
  - now intros [= <-].
Qed.

(** When the fuel runs out, every name tried is in use. *)
Lemma unique_sheet_none (fuel : nat) (names : list pystr) (base : pystr) :
  forall sheet suffix,
    unique_sheet fuel names base sheet suffix = None ->
    In sheet names /\
    forall k, k < fuel ->
      In (sanitize_sheet_name (suffixed base (suffix + N.of_nat k))) names.
Proof.
  induction fuel as [|f IH]; intros sheet suffix; simpl;
    destruct (in_dec pystr_eq_dec sheet names) as [i|n]; try discriminate.
  - intros _. split; [exact i|]. intros k Hk. lia.
  - intros H. apply IH in H. destruct H as (H0 & H). split; [exact i|].
    intros [|k] Hk.
    + now rewrite N.add_0_r.
    + replace (suffix + N.of_nat (S k))%N with (suffix + 1 + N.of_nat k)%N
        by lia.
      apply H. lia.
Qed.

Lemma digit_plain (c : N) : is_digit c = true -> plain c = true.
Proof.
  unfold is_digit. intros H. apply andb_true_iff in H. destruct H as (L & U).
  apply N.leb_le in L, U. apply plain_iff. split.
  - destruct (isspace c) eqn:E; [|reflexivity].
    apply char_in_In in E. simpl in E. exfalso. intuition lia.
  - destruct (forbidden c) eqn:E; [|reflexivity].
    apply char_in_In in E. simpl in E. exfalso. intuition lia.
Qed.

Lemma str_int_plain (n : N) : Forall (fun c => plain c = true) (str_int n).
Proof.
  eapply Forall_impl; [|apply str_int_digits]. apply digit_plain.
Qed.

Lemma suffix_plain (n : N) :
  Forall (fun c => plain c = true) (py "_" ++ str_int n).
Proof. constructor; [reflexivity | apply str_int_plain]. Qed.

Lemma sanitize_suffixed (name : pystr) (suffix : N) :
  sanitize_sheet_name (suffixed (sanitize_sheet_name name) suffix) =
  firstn 31 (suffixed (sanitize_sheet_name name) suffix).
Proof.
  unfold suffixed. apply sanitize_append; [apply suffix_plain | discriminate].
Qed.

Lemma suffixed_inj (base : pystr) (n m : N) :
  suffixed base n = suffixed base m -> n = m.
Proof.
  unfold suffixed. intros H. apply app_inv_head in H.
  apply app_inv_head in H. now apply str_int_inj.
Qed.

(** The loop ends when the suffixes that may be needed fit. *)
Lemma unique_sheet_terminates (name : pystr) (existing : list pystr) (d : nat) :
  let base := sanitize_sheet_name name in
  1 <= d -> (N.of_nat (length existing) + 2 <= 10 ^ N.of_nat d)%N ->
  length base + 1 + d <= 31 ->
  exists sheet,
    unique_sheet (length existing) existing base base 2 = Some sheet.
Proof.
  intros base Hd Hn Hlen.
  destruct (unique_sheet (length existing) existing base base 2) as [s|] eqn:E;
    [now exists s|].
  exfalso. apply unique_sheet_none in E. destruct E as (H0 & H).
  set (tried := base :: map (fun k => suffixed base (2 + N.of_nat k))
                            (seq 0 (length existing))).
  assert (Hincl : incl tried existing).
  { intros x [<-|Hx]; [exact H0|].
    apply in_map_iff in Hx. destruct Hx as (k & <- & Hk). apply in_seq in Hk.
    specialize (H k ltac:(lia)). unfold base in H.
    rewrite sanitize_suffixed in H. fold base in H.
    rewrite firstn_all2 in H; [exact H|].
    unfold suffixed. rewrite !length_app.
    change (length (py "_")) with 1.
    assert (length (str_int (2 + N.of_nat k)) <= d); [|lia].
    apply str_int_length; [|exact Hd].
    revert Hn. generalize (10 ^ N.of_nat d)%N. lia. }
  assert (Hnd : NoDup tried).
  { constructor.
    - intros Hx. apply in_map_iff in Hx. destruct Hx as (k & Hk & _).
      apply (f_equal (@length N)) in Hk. unfold suffixed in Hk.
      rewrite !length_app in Hk. change (length (py "_")) with 1 in Hk. lia.
    - apply Injective_map_NoDup_in; [|apply seq_NoDup].
      intros x y _ _ Hxy. apply suffixed_inj in Hxy. lia. }
  pose proof (NoDup_incl_length Hnd Hincl) as L.
  unfold tried in L. simpl in L. rewrite length_map, length_seq in L. lia.
Qed.

Lemma unique_names_NoDup (fuel : nat) (candidates : list pystr) :
  forall existing out,
    NoDup existing -> unique_names fuel candidates existing = Some out ->
    NoDup out.
Proof.
  induction candidates as [|c rest IH]; intros existing out Hnd; simpl.
  - now intros [= <-].
  - destruct (unique_name fuel c existing) as [s|] eqn:E; [|discriminate].
    apply IH. apply unique_sheet_not_in in E.
    apply NoDup_app; [exact Hnd | repeat constructor; auto |].
    intros a Ha [<-|[]]. contradiction.
Qed.

(** ** Names of table sheets *)

Lemma table_name_plain (i n : N) :
  Forall (fun c => plain c = true) (table_name i n).
Proof.
  unfold table_name. constructor; [reflexivity|].
  apply Forall_app. split; [apply str_int_plain|].
  repeat (constructor; [reflexivity|]). apply str_int_plain.
Qed.

Lemma digits_split (l1 : pystr) : forall l2 r1 r2,
  Forall (fun c => is_digit c = true) l1 ->
  Forall (fun c => is_digit c = true) l2 ->
  l1 ++ 95%N :: r1 = l2 ++ 95%N :: r2 -> l1 = l2 /\ r1 = r2.
Proof.
  induction l1 as [|c l1 IH]; intros [|c2 l2] r1 r2 H1 H2 E; simpl in E.
  - inversion E. auto.
  - inversion E; subst. inversion H2; subst. discriminate.
  - inversion E; subst. inversion H1; subst. discriminate.
  - inversion E; subst. inversion H1; inversion H2; subst.
    destruct (IH l2 r1 r2) as (-> & ->); auto.
Qed.

Lemma table_name_inj (i n i' n' : N) :
  table_name i n = table_name i' n' -> i = i' /\ n = n'.
Proof.
  unfold table_name. intros E. simpl in E. inversion E as [E'].
  apply digits_split in E'; try apply str_int_digits.
  destruct E' as (Ei & En). inversion En as [En'].
  split; now apply str_int_inj.
Qed.

Lemma table_name_length (i n : N) :
  (i < 10 ^ 13)%N -> (n < 10 ^ 13)%N -> length (table_name i n) <= 31.
Proof.
  intros Hi Hn. unfold table_name. rewrite !length_app.
  pose proof (@str_int_length i 13 Hi ltac:(lia)).
  pose proof (@str_int_length n 13 Hn ltac:(lia)).
  change (length (py "p")) with 1. change (length (py "_tbl")) with 4. lia.
Qed.

Lemma table_sheet_small (i n : N) :
  (i < 10 ^ 13)%N -> (n < 10 ^ 13)%N -> table_sheet i n = table_name i n.
Proof.
  intros Hi Hn. unfold table_sheet.
  rewrite sanitize_plain; [|apply table_name_plain | discriminate].
  apply firstn_all2. now apply table_name_length.
Qed.

Lemma lstrip_app_last (l : pystr) (c : N) :
  isspace c = false -> exists r, lstrip (l ++ [c]) = r ++ [c].
Proof.
  intros H. induction l as [|x l (r & IH)]; simpl.
  - rewrite H. now exists [].
  - destruct (isspace x); [now exists r|]. now exists (x :: l).
Qed.

Lemma sanitize_head (c : N) (s : pystr) :
  plain c = true -> exists r, sanitize_sheet_name (c :: s) = c :: r.
Proof.
  intros Hp. apply plain_iff in Hp. destruct Hp as (Hw & Hf).
  unfold sanitize_sheet_name. simpl sub_forbidden. rewrite Hf.
  simpl sub_ws_runs. rewrite Hw.
  set (t := sub_ws_runs false _). unfold strip.
  rewrite lstrip_fixed by exact Hw. unfold rstrip. simpl rev.
  destruct (@lstrip_app_last (rev t) c Hw) as (r & ->).
  rewrite rev_app_distr. simpl. now eexists.
Qed.

Lemma table_sheet_head (i n : N) : starts_with_p (table_sheet i n).
Proof. apply sanitize_head. reflexivity. Qed.

Lemma unique_sheet_head (fuel : nat) (names : list pystr) (base : pystr) :
  starts_with_p base ->
  forall sheet suffix s,
    starts_with_p sheet ->
    unique_sheet fuel names base sheet suffix = Some s -> starts_with_p s.
Proof.
  intros (b & ->).
  induction fuel as [|f IH]; intros sheet suffix s Hs; simpl;
    destruct (in_dec pystr_eq_dec sheet names) as [i|n]; try discriminate.
  - now intros [= <-].
  - apply IH. apply sanitize_head. reflexivity.
  - now intros [= <-].
Qed.

(** ** Text lines *)

Lemma splitlines_from_Forall (P : N -> Prop) (s : pystr) :
  forall cur,
    Forall P cur -> Forall P s ->
    Forall (Forall P) (splitlines_from cur s).
Proof.
  induction s as [|c rest IH]; intros cur Hcur Hs; cbn [splitlines_from].
  - destruct cur; constructor; [|constructor]. now apply Forall_rev_iff.
  - inversion Hs as [|? ? Hc Hrest]; subst.
    assert (Hnew : Forall (Forall P) (splitlines_from [] rest))
      by (apply IH; [constructor | exact Hrest]).
    assert (Hline : Forall P (rev cur)) by now apply Forall_rev_iff.
    destruct (c =? 13)%N.
    + destruct rest as [|d rest']; [now constructor|].
      destruct (d =? 10)%N eqn:Ed; [|now constructor].
      constructor; [exact Hline|].
      apply N.eqb_eq in Ed. subst d. cbn [splitlines_from] in Hnew.
      change (10 =? 13)%N with false in Hnew.
      change (linebreak 10) with true in Hnew. cbn iota in Hnew.
      now inversion Hnew.
    + destruct (linebreak c); [now constructor|].
      apply IH; [now constructor | exact Hrest].
Qed.

(** No line holds a line boundary. *)
Lemma splitlines_from_no_break (s : pystr) :
  forall cur,
    Forall (fun c => linebreak c = false) cur ->
    Forall (Forall (fun c => linebreak c = false)) (splitlines_from cur s).
Proof.
  induction s as [|c rest IH]; intros cur Hcur; cbn [splitlines_from].
  - destruct cur; constructor; [|constructor]. now apply Forall_rev_iff.
  - assert (Hline : Forall (fun c => linebreak c = false) (rev cur))
      by now apply Forall_rev_iff.
    assert (Hnew := IH [] (Forall_nil _)).
    destruct (N.eqb_spec c 13) as [->|Hc].
    + destruct rest as [|d rest']; [now constructor|].
      destruct (d =? 10)%N eqn:Ed; [|now constructor].
      constructor; [exact Hline|].
      apply N.eqb_eq in Ed. subst d. cbn [splitlines_from] in Hnew.
      change (10 =? 13)%N with false in Hnew.
      change (linebreak 10) with true in Hnew. cbn iota in Hnew.
      now inversion Hnew.
    + destruct (linebreak c) eqn:El; [now constructor|].
      apply IH. now constructor.
Qed.

Lemma lstrip_nil_iff (s : pystr) :
  lstrip s = [] <-> Forall (fun c => isspace c = true) s.
Proof.
  induction s as [|c s IH]; simpl; [split; [constructor | reflexivity]|].
  destruct (isspace c) eqn:E.
  - rewrite IH. split; [now constructor | now inversion 1].
  - split; [discriminate|]. inversion 1; congruence.
Qed.

Lemma strip_nil_iff (s : pystr) :
  strip s = [] <-> Forall (fun c => isspace c = true) s.
Proof.
  rewrite <- lstrip_nil_iff. unfold strip, rstrip. split.
  - intros H. apply (f_equal (@rev N)) in H. rewrite rev_involutive in H.
    simpl in H. apply lstrip_nil_iff in H.
    pose proof (lstrip_head s) as Hh.
    destruct (lstrip s) as [|c r]; [reflexivity|].
    apply Forall_rev_iff in H. rewrite rev_involutive in H.
    inversion H; congruence.
  - intros ->. reflexivity.
Qed.

Lemma strip_idempotent (s : pystr) : strip (strip s) = strip s.
Proof. apply strip_fixed; apply strip_ends. Qed.

Lemma page_text_rows_eq (page_index : N) (txt : pystr) :
  page_text_rows page_index txt =
  map (pair page_index) (filter truthy (map strip (splitlines txt))).
Proof.
  assert (F : forall lines,
            flat_map (fun line => if truthy (strip line)
                                  then [(page_index, strip line)] else [])
                     lines
            = map (pair page_index) (filter truthy (map strip lines))).
  { induction lines as [|l lines IH]; [reflexivity|].
    cbn [flat_map map filter]. rewrite IH.
    destruct (truthy (strip l)); reflexivity. }
  unfold page_text_rows. rewrite F.
  destruct (strip txt) as [|c r] eqn:E; [|reflexivity].
  cbn [truthy]. apply strip_nil_iff in E.
  rewrite filter_none; [reflexivity|].
  intros l Hl. apply in_map_iff in Hl. destruct Hl as (line & <- & Hline).
  assert (H : Forall (Forall (fun c => isspace c = true)) (splitlines txt))
    by (apply splitlines_from_Forall; [constructor | exact E]).
  rewrite Forall_forall in H. specialize (H line Hline).
  apply strip_nil_iff in H. now rewrite H.
Qed.

(** The text records of a page are its lines, as [splitlines] cuts them,
    trimmed, without the blank ones, in order, each with the page number:
    the test of line 142 on the whole text changes nothing. *)
Theorem page_text_rows_lines (page_index : N) (txt : pystr) :
  page_text_rows page_index txt =
  map (pair page_index) (filter truthy (map strip (splitlines txt))).
Proof. apply page_text_rows_eq. Qed.

(** Every text record carries the page number and a text that is not
    empty, has no whitespace at either end and holds no line boundary. *)
Theorem page_text_rows_trimmed (page_index : N) (txt : pystr) :
  Forall (fun r => fst r = page_index /\
                   snd r <> [] /\
                   strip (snd r) = snd r /\
                   Forall (fun c => linebreak c = false) (snd r))
         (page_text_rows page_index txt).
Proof.
  rewrite page_text_rows_eq. apply Forall_forall. intros r Hr.
  apply in_map_iff in Hr. destruct Hr as (l & <- & Hl).
  apply filter_In in Hl. destruct Hl as (Hl & Ht).
  apply in_map_iff in Hl. destruct Hl as (line & <- & Hline).
  cbn [fst snd]. repeat split.
  - intros E. rewrite E in Ht. discriminate.
  - apply strip_idempotent.
  - apply strip_Forall.
    pose proof (splitlines_from_no_break txt (Forall_nil _)) as H.
    rewrite Forall_forall in H. now apply H.
Qed.

(** ** The page loop *)

Section ConverterFacts.
Variable py_float : pystr -> bool.
Variable excel_accepts : pystr -> Frame -> bool.

Lemma page_text_text_of (page : Page) : page_text page = Ok (text_of page).
Proof.
  unfold page_text, text_of. now destruct (extract_text page) as [[s|]|].
Qed.

Lemma text_frame_sheet (lines : list (N * pystr)) :
  text_frame lines = snd (text_sheet lines).
Proof. now destruct lines. Qed.

Lemma accepts_all_app (a b : Workbook) :
  accepts_all excel_accepts (a ++ b) =
  accepts_all excel_accepts a && accepts_all excel_accepts b.
Proof. apply forallb_app. Qed.

Lemma refused_sheet (sheets : Workbook) :
  accepts_all excel_accepts sheets = false ->
  exists sheet df, In (sheet, df) sheets /\ excel_accepts sheet df = false.
Proof.
  induction sheets as [|[s df] rest IH]; [discriminate|].
  cbn [accepts_all forallb fst snd].
  destruct (excel_accepts s df) eqn:E.
  - intros H. destruct (IH H) as (s' & df' & Hin & Hr).
    exists s', df'. split; [now right | exact Hr].
  - intros _. exists s, df. split; [now left | exact E].
Qed.

Lemma write_tables_kept (fuel : nat) (i : N) (tables : list (list Row)) :
  forall st,
    write_tables py_float excel_accepts fuel i st tables =
    write_kept py_float excel_accepts fuel i st
      (filter (fun rows => negb (is_noise rows))
              (map clean_table_data tables)).
Proof.
  induction tables as [|raw rest IH]; intros [[wb found] count];
    [reflexivity|].
  cbn [write_tables map filter]. unfold write_table.
  destruct (is_noise (clean_table_data raw)); cbn [negb]; [apply IH|].
  cbn [write_kept].
  destruct (unique_sheet _ _ _ _ _); [|reflexivity].
  destruct (to_excel _ _ _ _); [apply IH | reflexivity].
Qed.

(** What a run of the table loop adds to the book. *)
Lemma write_kept_adds (fuel : nat) (i : N) (kept : list (list Row)) :
  forall wb found count wb' found' count',
    write_kept py_float excel_accepts fuel i (wb, found, count) kept
      = Some (Ok (wb', found', count')) ->
    exists added,
      wb' = wb ++ added /\
      map snd added = map (table_frame py_float) kept /\
      found' = (found + N.of_nat (length kept))%N /\
      count' = (count + N.of_nat (length kept))%N /\
      Forall starts_with_p (sheetnames added) /\
      accepts_all excel_accepts added = true /\
      (NoDup (sheetnames wb) -> NoDup (sheetnames wb')).
Proof.
  induction kept as [|rows rest IH]; intros wb found count wb' found' count'.
  - simpl. intros [= <- <- <-]. exists []. rewrite app_nil_r.
    repeat split; try constructor; auto; lia.
  - cbn [write_kept].
    destruct (unique_sheet _ _ _ _ _) as [s|] eqn:E; [|discriminate].
    unfold to_excel.
    destruct (excel_accepts s (table_frame py_float rows)) eqn:Ea;
      [|discriminate].
    intros H. apply IH in H.
    destruct H as (added & -> & Hf & -> & -> & Hp & Ha & Hnd).
    exists ((s, table_frame py_float rows) :: added).
    rewrite <- app_assoc in *. cbn [app map snd length] in *.
    rewrite Hf. repeat split; try lia.
    + constructor; [|exact Hp].
      eapply unique_sheet_head; [| |exact E]; apply table_sheet_head.
    + cbn [accepts_all forallb fst snd]. rewrite Ea. exact Ha.
    + intros Hwb. apply Hnd. unfold sheetnames.
      rewrite map_app. simpl. apply NoDup_app; [exact Hwb | |].
      * repeat constructor. auto.
      * intros a Ha' [<-|[]]. now apply unique_sheet_not_in in E.
Qed.

(** The table loop raises only when the writer refuses the sheet of a
    table. *)
Lemma write_kept_raised (fuel : nat) (i : N) (kept : list (list Row)) :
  forall wb found count,
    write_kept py_float excel_accepts fuel i (wb, found, count) kept
      = Some Raised ->
    exists sheet rows,
      In rows kept /\ excel_accepts sheet (table_frame py_float rows) = false.
Proof.
  induction kept as [|rows rest IH]; intros wb found count; [discriminate|].
  cbn [write_kept].
  destruct (unique_sheet _ _ _ _ _) as [s|]; [|discriminate].
  unfold to_excel.
  destruct (excel_accepts s (table_frame py_float rows)) eqn:Ea.
  - intros H. destruct (IH _ _ _ H) as (s' & rows' & Hin & Hr).
    exists s', rows'. split; [now right | exact Hr].
  - intros _. exists s, rows. split; [now left | exact Ea].
Qed.

Lemma convert_page_kept (fuel : nat) (i : N) (page : Page) (st : State) :
  convert_page py_float excel_accepts fuel i page st =
  match write_kept py_float excel_accepts fuel i
                   (book st, tables_found st, 0%N)
                   (surviving_tables page) with
  | Some (Ok (wb, found, count)) =>
      Some (Ok (after_page i page st wb found count))
  | Some Raised => Some Raised
  | None => None
  end.
Proof.
  unfold convert_page, surviving_tables, page_tables, after_page.
  destruct (extracted_tables_ok page) as (ts & ->).
  rewrite write_tables_kept.
  destruct (write_kept _ _ _ _ _ _) as [[[[wb found] count]|]|];
    try reflexivity.
  destruct (count =? 0)%N; [|reflexivity].
  rewrite page_text_text_of, page_text_rows_eq. fold (text_lines i page).
  simpl scan_flags.
  destruct (looks_scanned_ok page) as ([|] & ->); [reflexivity|].
  now rewrite app_nil_r.
Qed.

Lemma convert_page_ok (fuel : nat) (i : N) (page : Page) (st st' : State) :
  State_ok st ->
  convert_page py_float excel_accepts fuel i page st = Some (Ok st') ->
  State_ok st'.
Proof.
  intros (Hnd & Hp & Hf). rewrite convert_page_kept.
  destruct (write_kept _ _ _ _ _ _) as [[[[wb found] count]|]|] eqn:E;
    try discriminate.
  apply write_kept_adds in E.
  destruct E as (added & -> & Hm & -> & -> & Hpa & _ & Hnda).
  assert (Hl : length added = length (surviving_tables page)).
  { apply (f_equal (@length Frame)) in Hm. now rewrite !length_map in Hm. }
  intros [= <-]. unfold after_page.
  destruct (_ =? 0)%N; unfold State_ok; cbn [book tables_found];
    (repeat split;
     [ now apply Hnda
     | unfold sheetnames in *; rewrite map_app; apply Forall_app; now split
     | rewrite length_app, Hl, Hf; lia ]).
Qed.

Lemma convert_pages_ok (fuel : nat) (pages : list Page) :
  forall i st st',
    State_ok st ->
    convert_pages py_float excel_accepts fuel i pages st = Some (Ok st') ->
    State_ok st'.
Proof.
  induction pages as [|page rest IH]; intros i st st' Hok; simpl.
  - now intros [= <-].
  - destruct (convert_page py_float excel_accepts fuel i page st)
      as [[st1|]|] eqn:E; try discriminate.
    apply IH. eapply convert_page_ok; eauto.
Qed.

Lemma init_state_ok : State_ok init_state.
Proof. repeat split; constructor. Qed.

Lemma not_starts_with_p (s : pystr) (names : list pystr) :
  Forall starts_with_p names -> (forall r, s <> 112%N :: r) -> ~ In s names.
Proof.
  intros H Hs Hin. rewrite Forall_forall in H.
  destruct (H s Hin) as (r & E). now apply (Hs r).
Qed.

(** The closing sheets: what [finish] gives on a state of the page loop. *)
Lemma finish_eq (st : State) :
  tables_found st = N.of_nat (length (book st)) ->
  let closing := text_sheets (book st) (text_rows st)
                 ++ info_sheets (ocr_pages st) in
  finish excel_accepts st =
  if accepts_all excel_accepts closing
  then Ok (book st ++ closing) else Raised.
Proof.
  intros Hn. cbv zeta. unfold finish, write_text, to_excel. rewrite Hn.
  destruct (book st) as [|t ts]; cbn [length N.of_nat N.eqb text_sheets].
  - rewrite text_frame_sheet.
    change (py "Text") with (fst (text_sheet (text_rows st))) at 1 2.
    rewrite <- surjective_pairing.
    cbn [app accepts_all forallb].
    destruct (excel_accepts _ _); [|reflexivity].
    cbn [bind_result andb].
    destruct (ocr_pages st) as [|p ps]; [reflexivity|].
    cbn [info_sheets forallb fst snd]. unfold info_frame.
    destruct (excel_accepts _ _); reflexivity.
  - cbn [bind_result app].
    destruct (ocr_pages st) as [|p ps].
    + cbn [info_sheets accepts_all forallb]. now rewrite app_nil_r.
    + cbn [info_sheets accepts_all forallb fst snd]. unfold info_frame.
      destruct (excel_accepts _ _); reflexivity.
Qed.

Lemma finish_names (st : State) (wb : Workbook) :
  State_ok st -> finish excel_accepts st = Ok wb ->
  NoDup (sheetnames wb) /\ wb <> [].
Proof.
  intros (Hnd & Hp & Hf). rewrite (finish_eq _ Hf). cbv zeta.
  destruct (accepts_all _ _); [|discriminate]. intros [= <-].
  assert (HT : ~ In (py "Text") (sheetnames (book st)))
    by (apply not_starts_with_p; [exact Hp | discriminate]).
  assert (HI : ~ In (py "Info") (sheetnames (book st)))
    by (apply not_starts_with_p; [exact Hp | discriminate]).
  split.
  - unfold sheetnames in *. rewrite map_app. apply NoDup_app; [exact Hnd | |].
    + destruct (book st); destruct (ocr_pages st);
        cbn [text_sheets info_sheets text_sheet app map fst];
        repeat constructor; simpl; intuition discriminate.
    + intros a Ha Hin.
      assert (a = py "Text" \/ a = py "Info") as [->| ->]; try contradiction.
      revert Hin. clear.
      destruct (book st); destruct (ocr_pages st);
        cbn [text_sheets info_sheets text_sheet app map fst In];
        intuition.
  - destruct (book st) as [|t ts]; [|discriminate].
    cbn [text_sheets app]. discriminate.
Qed.

(** The sheet names of a converted document are pairwise distinct, so every
    [to_excel] of the converter opens a new sheet. *)
Lemma convert_sheetnames_NoDup (fuel : nat) (pages : list Page) (wb : Workbook) :
  convert_pdf_to_excel_bytes py_float excel_accepts fuel pages = Some (Ok wb) ->
  NoDup (sheetnames wb).
Proof.
  unfold convert_pdf_to_excel_bytes.
  destruct (convert_pages _ _ _ _ _ _) as [[st|]|] eqn:E; try discriminate.
  intros [= H]. eapply finish_names; [|exact H].
  eapply convert_pages_ok; [apply init_state_ok | exact E].
Qed.

Lemma convert_nonempty (fuel : nat) (pages : list Page) (wb : Workbook) :
  convert_pdf_to_excel_bytes py_float excel_accepts fuel pages = Some (Ok wb) ->
  wb <> [].
Proof.
  unfold convert_pdf_to_excel_bytes.
  destruct (convert_pages _ _ _ _ _ _) as [[st|]|] eqn:E; try discriminate.
  intros [= H]. eapply finish_names; [|exact H].
  eapply convert_pages_ok; [apply init_state_ok | exact E].
Qed.

(** The converter raises only when the writer refuses a sheet: that of a
    surviving table, the Text sheet or the Info sheet. *)
Lemma convert_page_raised (fuel : nat) (i : N) (page : Page) (st : State) :
  convert_page py_float excel_accepts fuel i page st = Some Raised ->
  exists sheet rows,
    In rows (surviving_tables page) /\
    excel_accepts sheet (table_frame py_float rows) = false.
Proof.
  rewrite convert_page_kept.
  destruct (write_kept _ _ _ _ _ _) as [[[[wb found] count]|]|] eqn:E;
    try discriminate.
  intros _. eapply write_kept_raised, E.
Qed.

Lemma convert_pages_raised (fuel : nat) (pages : list Page) :
  forall i st,
    convert_pages py_float excel_accepts fuel i pages st = Some Raised ->
    exists page sheet rows,
      In page pages /\ In rows (surviving_tables page) /\
      excel_accepts sheet (table_frame py_float rows) = false.
Proof.
  induction pages as [|page rest IH]; intros i st; simpl; [discriminate|].
  destruct (convert_page py_float excel_accepts fuel i page st)
    as [[st'|]|] eqn:E.
  - intros H. destruct (IH _ _ H) as (pg & s & rows & Hin & Hr & Ha).
    exists pg, s, rows. auto.
  - intros _. destruct (convert_page_raised _ _ _ _ E) as (s & rows & Hr & Ha).
    exists page, s, rows. auto.
  - discriminate.
Qed.

Lemma convert_raised (fuel : nat) (pages : list Page) :
  convert_pdf_to_excel_bytes py_float excel_accepts fuel pages = Some Raised ->
  exists sheet df,
    excel_accepts sheet df = false /\
    ((exists page rows,
        In page pages /\ In rows (surviving_tables page) /\
        df = table_frame py_float rows) \/
     sheet = py "Text" \/ sheet = py "Info").
Proof.
  unfold convert_pdf_to_excel_bytes.
  destruct (convert_pages _ _ _ _ _ _) as [[st|]|] eqn:E; try discriminate.
  - pose proof (convert_pages_ok _ _ _ init_state_ok E) as (_ & _ & Hf).
    rewrite (finish_eq _ Hf). cbv zeta.
    destruct (accepts_all _ _) eqn:Ea; [discriminate|]. intros _.
    destruct (refused_sheet _ Ea) as (s & df & Hin & H).
    exists s, df. split; [exact H|]. right.
    apply (in_map fst) in Hin. revert Hin. clear.
    destruct (book st); destruct (ocr_pages st);
      cbn [text_sheets info_sheets text_sheet app map fst In]; intuition.
  - intros _.
    destruct (convert_pages_raised _ _ _ _ E)
      as (pg & s & rows & Hin & Hr & Ha).
    exists s, (table_frame py_float rows). split; [exact Ha|]. left.
    now exists pg, rows.
Qed.

Lemma convert_page_without_tables fuel i page st :
  primary_mode page = Raised -> secondary_mode page = Raised ->
  convert_page py_float excel_accepts fuel i page st =
  convert_page py_float excel_accepts fuel i (without_tables page) st.
Proof.
  intros H1 H2. unfold convert_page.
  rewrite (extracted_tables_modes page), H1, H2. reflexivity.
Qed.

Lemma convert_pages_app fuel pre : forall post i st,
  convert_pages py_float excel_accepts fuel i (pre ++ post) st =
  match convert_pages py_float excel_accepts fuel i pre st with
  | Some (Ok st') =>
      convert_pages py_float excel_accepts fuel
        (i + N.of_nat (length pre))%N post st'
  | other => other
  end.
Proof.
  induction pre as [|page pre IH]; intros post i st; simpl.
  - now rewrite N.add_0_r.
  - destruct (convert_page py_float excel_accepts fuel i page st)
      as [[st'|]|]; try reflexivity.
    rewrite IH. replace (i + 1 + N.of_nat (length pre))%N
      with (i + N.pos (Pos.of_succ_nat (length pre)))%N by lia.
    reflexivity.
Qed.

Lemma tables_below_next (i k : N) (names : list pystr) :
  tables_below i k names -> tables_below (i + 1) 0 names.
Proof.
  intros H s Hs. destruct (H s Hs) as (i' & n' & -> & Hlt).
  exists i', n'. split; [reflexivity | lia].
Qed.

Lemma number_sheets_length (i k : N) (kept : list (list Row)) :
  length (number_sheets py_float i k kept) = length kept.
Proof.
  revert k. induction kept as [|rows rest IH]; intros k; [reflexivity|].
  cbn [number_sheets length]. now rewrite IH.
Qed.

(** Within the bounds of a small document no name is taken: the loop of
    lines 128-130 ends at once, whatever the fuel. *)
Lemma write_kept_small_eq (fuel : nat) (i : N) (kept : list (list Row)) :
  forall wb found count,
    (i < 10 ^ 13)%N -> (count + N.of_nat (length kept) < 10 ^ 13)%N ->
    tables_below i count (sheetnames wb) ->
    write_kept py_float excel_accepts fuel i (wb, found, count) kept =
    (if accepts_all excel_accepts (number_sheets py_float i (count + 1) kept)
     then Some (Ok (wb ++ number_sheets py_float i (count + 1) kept,
                    (found + N.of_nat (length kept))%N,
                    (count + N.of_nat (length kept))%N))
     else Some Raised) /\
    tables_below i (count + N.of_nat (length kept))
      (sheetnames (wb ++ number_sheets py_float i (count + 1) kept)).
Proof.
  induction kept as [|rows rest IH]; intros wb found count Hi Hc Hb.
  - cbn [write_kept number_sheets length N.of_nat accepts_all forallb].
    rewrite app_nil_r, !N.add_0_r. now split.
  - simpl length in *.
    assert (Hc1 : (count + 1 < 10 ^ 13)%N) by lia.
    assert (Hfresh : ~ In (table_name i (count + 1)) (sheetnames wb)).
    { intros Hin. destruct (Hb _ Hin) as (i' & n' & E & Hlt).
      apply table_name_inj in E. lia. }
    destruct (IH (wb ++ [(table_name i (count + 1),
                          table_frame py_float rows)])
                 (found + 1)%N (count + 1)%N Hi ltac:(lia)) as (E & Hb').
    { intros s Hs. unfold sheetnames in Hs. rewrite map_app in Hs.
      apply in_app_or in Hs. destruct Hs as [Hs|[<-|[]]].
      - destruct (Hb s Hs) as (i' & n' & -> & Hlt). exists i', n'.
        split; [reflexivity | lia].
      - exists i, (count + 1)%N. split; [reflexivity | lia]. }
    replace (count + N.of_nat (S (length rest)))%N
      with (count + 1 + N.of_nat (length rest))%N by lia.
    replace (found + N.of_nat (S (length rest)))%N
      with (found + 1 + N.of_nat (length rest))%N by lia.
    cbn [number_sheets]. rewrite <- app_assoc in E, Hb'.
    split; [|exact Hb'].
    cbn [write_kept]. rewrite (table_sheet_small Hi Hc1).
    rewrite unique_sheet_fresh by exact Hfresh.
    unfold to_excel. cbn [accepts_all forallb fst snd].
    destruct (excel_accepts (table_name i (count + 1))
                            (table_frame py_float rows)); [|reflexivity].
    cbn [andb]. exact E.
Qed.

Lemma after_page_eq (i : N) (page : Page) (st : State) (wb : Workbook)
    (found : N) :
  after_page i page st wb found
             (0 + N.of_nat (length (surviving_tables page))) =
  {| book := wb;
     ocr_pages := ocr_pages st ++ loose_flags i [page];
     tables_found := found;
     text_rows := text_rows st ++ loose_text i [page] |}.
Proof.
  unfold after_page. cbn [loose_flags loose_text].
  destruct (surviving_tables page) as [|t ts]; cbn [length N.of_nat].
  - cbn. now rewrite !app_nil_r.
  - cbn. now rewrite !app_nil_r.
Qed.

Lemma loose_flags_cons (i : N) (page : Page) (rest : list Page) :
  loose_flags i (page :: rest) =
  loose_flags i [page] ++ loose_flags (i + 1) rest.
Proof. cbn [loose_flags]. now rewrite app_nil_r. Qed.

Lemma loose_text_cons (i : N) (page : Page) (rest : list Page) :
  loose_text i (page :: rest) = loose_text i [page] ++ loose_text (i + 1) rest.
Proof. cbn [loose_text]. now rewrite app_nil_r. Qed.

Lemma table_sheets_length (pages : list Page) : forall i,
  length (table_sheets py_float i pages) =
  length (concat (map surviving_tables pages)).
Proof.
  induction pages as [|page rest IH]; intros i; [reflexivity|].
  cbn [table_sheets map concat].
  now rewrite !length_app, number_sheets_length, IH.
Qed.

(** The page loop on a document whose names all fit in 31 characters. *)
Lemma convert_pages_small_eq (fuel : nat) (pages : list Page) :
  forall i st,
    (i + N.of_nat (length pages) <= 10 ^ 13)%N ->
    Forall (fun page =>
              (N.of_nat (length (surviving_tables page)) < 10 ^ 13)%N) pages ->
    tables_below i 0 (sheetnames (book st)) ->
    convert_pages py_float excel_accepts fuel i pages st =
    if accepts_all excel_accepts (table_sheets py_float i pages)
    then Some (Ok {| book := book st ++ table_sheets py_float i pages;
                     ocr_pages := ocr_pages st ++ loose_flags i pages;
                     tables_found :=
                       (tables_found st
                        + N.of_nat (length (table_sheets py_float i pages)))%N;
                     text_rows := text_rows st ++ loose_text i pages |})
    else Some Raised.
Proof.
  induction pages as [|page rest IH]; intros i st Hi Hn Hb.
  - cbn. rewrite !app_nil_r, N.add_0_r. now destruct st.
  - inversion Hn as [|? ? Hp Hrest]; subst. simpl length in Hi.
    cbn [convert_pages]. rewrite convert_page_kept.
    destruct (@write_kept_small_eq fuel i (surviving_tables page) (book st)
                (tables_found st) 0%N ltac:(lia) ltac:(lia) Hb) as (E & Hb').
    rewrite E. cbn [table_sheets]. rewrite accepts_all_app.
    change (0 + 1)%N with 1%N in *.
    destruct (accepts_all excel_accepts
                (number_sheets py_float i 1 (surviving_tables page)));
      [|reflexivity].
    cbn [andb]. rewrite after_page_eq, IH.
    + cbn [book ocr_pages tables_found text_rows].
      destruct (accepts_all _ _); [|reflexivity].
      rewrite (loose_flags_cons i page rest), (loose_text_cons i page rest).
      rewrite <- !app_assoc, length_app, number_sheets_length.
      now rewrite Nat2N.inj_add, N.add_assoc.
    + lia.
    + exact Hrest.
    + cbn [book]. eapply tables_below_next, Hb'.
Qed.

(** A document whose names all fit in 31 characters: the sheets are sent
    to the writer in the order of the book. *)
Lemma convert_few_tables (fuel : nat) (pages : list Page) :
  (N.of_nat (length pages) < 10 ^ 13)%N ->
  Forall (fun page =>
            (N.of_nat (length (surviving_tables page)) < 10 ^ 13)%N) pages ->
  convert_pdf_to_excel_bytes py_float excel_accepts fuel pages =
  written excel_accepts
    (table_sheets py_float 1 pages
     ++ text_sheets (table_sheets py_float 1 pages) (loose_text 1 pages)
     ++ info_sheets (loose_flags 1 pages)).
Proof.
  intros Hl Hn. unfold convert_pdf_to_excel_bytes, written.
  rewrite (@convert_pages_small_eq fuel pages 1%N init_state ltac:(lia) Hn)
    by (intros s []).
  rewrite accepts_all_app.
  destruct (accepts_all excel_accepts (table_sheets py_float 1 pages));
    [|reflexivity].
  rewrite finish_eq by reflexivity. cbv zeta. cbn [book text_rows ocr_pages app andb].
  destruct (accepts_all _ _); reflexivity.
Qed.

Lemma surviving_tables_length (page : Page) :
  length (surviving_tables page) <= length (page_tables page).
Proof.
  unfold surviving_tables.
  pose proof (filter_length_le (fun rows => negb (is_noise rows))
                (map clean_table_data (page_tables page))) as L.
  now rewrite length_map in L.
Qed.

(** A small document is converted, whatever the fuel. *)
Lemma convert_small (fuel : nat) (pages : list Page) :
  small_document pages ->
  convert_pdf_to_excel_bytes py_float excel_accepts fuel pages =
  written excel_accepts
    (table_sheets py_float 1 pages
     ++ text_sheets (table_sheets py_float 1 pages) (loose_text 1 pages)
     ++ info_sheets (loose_flags 1 pages)).
Proof.
  intros (Hl & Hn). apply convert_few_tables; [exact Hl|].
  eapply Forall_impl; [|exact Hn]. intros page Hp. cbv beta in Hp.
  pose proof (surviving_tables_length page). lia.
Qed.

Lemma no_tables_loose (pages : list Page) :
  Forall (fun page => surviving_tables page = []) pages ->
  forall i,
    table_sheets py_float i pages = [] /\
    loose_text i pages = document_text i pages /\
    loose_flags i pages = scan_flags i pages.
Proof.
  induction 1 as [|page rest Hp _ IH]; intros i; [repeat split|].
  cbn [table_sheets loose_text loose_flags document_text scan_flags].
  rewrite Hp. destruct (IH (i + 1)%N) as (-> & -> & ->).
  repeat split. destruct (looks_scanned page) as [[|]|]; reflexivity.
Qed.

Lemma convert_pages_no_tables (fuel : nat) (pages : list Page) :
  Forall (fun page => surviving_tables page = []) pages ->
  forall i st,
    convert_pages py_float excel_accepts fuel i pages st =
    Some (Ok {| book := book st;
                ocr_pages := ocr_pages st ++ scan_flags i pages;
                tables_found := tables_found st;
                text_rows := text_rows st ++ document_text i pages |}).
Proof.
  induction 1 as [|page rest Hp _ IH]; intros i st; simpl.
  - rewrite !app_nil_r. now destruct st.
  - rewrite convert_page_kept, Hp. simpl. rewrite IH. simpl.
    rewrite <- !app_assoc. do 3 f_equal.
    destruct (looks_scanned page) as [[|]|]; reflexivity.
Qed.

(** A document without a surviving table becomes the Text sheet, and the
    Info sheet when a page looks scanned. *)
Lemma convert_no_tables (fuel : nat) (pages : list Page) :
  Forall (fun page => surviving_tables page = []) pages ->
  convert_pdf_to_excel_bytes py_float excel_accepts fuel pages =
  written excel_accepts
    (text_sheet (document_text 1 pages) :: info_sheets (scan_flags 1 pages)).
Proof.
  intros H. unfold convert_pdf_to_excel_bytes, written.
  rewrite (convert_pages_no_tables fuel H).
  rewrite finish_eq by reflexivity. cbv zeta.
  cbn [book text_rows ocr_pages app text_sheets].
  destruct (accepts_all _ _); reflexivity.
Qed.

(** What the page loop leaves, for any fuel with which it ends. *)
Lemma convert_pages_state (fuel : nat) (pages : list Page) :
  forall i st st',
    convert_pages py_float excel_accepts fuel i pages st = Some (Ok st') ->
    exists added,
      book st' = book st ++ added /\
      map snd added =
        map (table_frame py_float) (concat (map surviving_tables pages)) /\
      tables_found st' = (tables_found st + N.of_nat (length added))%N /\
      ocr_pages st' = ocr_pages st ++ loose_flags i pages /\
      text_rows st' = text_rows st ++ loose_text i pages /\
      accepts_all excel_accepts added = true.
Proof.
  induction pages as [|page rest IH]; intros i st st'.
  - simpl. intros [= <-]. exists []. rewrite !app_nil_r. simpl.
    repeat split. lia.
  - cbn [convert_pages]. rewrite convert_page_kept.
    destruct (write_kept _ _ _ _ _ _) as [[[[wb found] count]|]|] eqn:E;
      try discriminate.
    apply write_kept_adds in E.
    destruct E as (a1 & -> & Hf1 & -> & -> & _ & Ha1 & _).
    rewrite after_page_eq.
    intros H. apply IH in H. cbn [book ocr_pages tables_found text_rows] in H.
    destruct H as (a2 & Hb2 & Hf2 & Hn2 & Ho2 & Ht2 & Ha2).
    exists (a1 ++ a2). rewrite app_assoc, <- Hb2. split; [reflexivity|].
    cbn [map concat]. rewrite !map_app, Hf1, Hf2.
    rewrite loose_flags_cons, loose_text_cons, !app_assoc, Ho2, Ht2.
    rewrite accepts_all_app, Ha1, Ha2.
    repeat split.
    rewrite Hn2, length_app.
    apply (f_equal (@length Frame)) in Hf1. rewrite !length_map in Hf1. lia.
Qed.

Lemma convert_book_parts (fuel : nat) (pages : list Page)
    (wb : Workbook) :
  convert_pdf_to_excel_bytes py_float excel_accepts fuel pages = Some (Ok wb) ->
  exists tables,
    wb = tables ++ text_sheets tables (loose_text 1 pages)
                ++ info_sheets (loose_flags 1 pages) /\
    map snd tables =
      map (table_frame py_float) (concat (map surviving_tables pages)) /\
    ~ In (py "Text") (sheetnames tables) /\
    ~ In (py "Info") (sheetnames tables) /\
    accepts_all excel_accepts wb = true.
Proof.
  unfold convert_pdf_to_excel_bytes.
  destruct (convert_pages _ _ _ _ _ _) as [[st|]|] eqn:E; try discriminate.
  pose proof (convert_pages_ok _ _ _ init_state_ok E) as (_ & Hp & Hn).
  apply convert_pages_state in E.
  destruct E as (tables & Hb & Hf & _ & Ho & Ht & Ha). cbn in Hb, Ho, Ht.
  rewrite (finish_eq _ Hn). cbv zeta. rewrite Hb, Ho, Ht in *.
  destruct (accepts_all excel_accepts (_ ++ _)) eqn:Ec; [|discriminate].
  intros [= <-]. exists tables. repeat split.
  - exact Hf.
  - apply not_starts_with_p; [exact Hp | discriminate].
  - apply not_starts_with_p; [exact Hp | discriminate].
  - now rewrite accepts_all_app, Ha, Ec.
Qed.

(** C3. A converted document has at least one sheet. A small document is
    converted, whatever the fuel, unless the writer refuses one of its
    sheets, and its book is not empty. When no table survives on any page,
    the book is the Text sheet with all the TextLines as (Page, Text)
    records, or with the single placeholder record when there is no
    TextLine, followed by the Info sheet if a page looks scanned; when
    there is no text and no scan flag either, it is the single Text sheet
    with the placeholder record. *)
Theorem convert_at_least_one_sheet (pages : list Page) :
  (forall fuel wb,
     convert_pdf_to_excel_bytes py_float excel_accepts fuel pages
       = Some (Ok wb) ->
     wb <> []) /\
  (small_document pages ->
   let sheets :=
     table_sheets py_float 1 pages
     ++ text_sheets (table_sheets py_float 1 pages) (loose_text 1 pages)
     ++ info_sheets (loose_flags 1 pages) in
   sheets <> [] /\
   forall fuel,
     convert_pdf_to_excel_bytes py_float excel_accepts fuel pages =
     written excel_accepts sheets) /\
  (Forall (fun page => surviving_tables page = []) pages ->
   forall fuel,
     convert_pdf_to_excel_bytes py_float excel_accepts fuel pages =
     written excel_accepts
       ((py "Text",
         Frame_text
           match document_text 1 pages with
           | [] => [(None, py "No extractable content found.")]
           | lines => map (fun line => (Some (fst line), snd line)) lines
           end)
        :: info_sheets (scan_flags 1 pages))) /\
  (Forall (fun page =>
             surviving_tables page = [] /\
             filter truthy (map strip (splitlines (text_of page))) = [] /\
             looks_scanned page = Ok false) pages ->
   forall fuel,
     convert_pdf_to_excel_bytes py_float excel_accepts fuel pages =
     written excel_accepts
       [(py "Text", Frame_text [(None, py "No extractable content found.")])]).
Proof.
  split; [|split; [|split]].
  - intros fuel wb. apply convert_nonempty.
  - intros Hs. cbv zeta. split.
    + destruct (table_sheets py_float 1 pages); discriminate.
    + intros fuel. now apply convert_small.
  - intros H fuel. rewrite (convert_no_tables fuel H). unfold text_sheet.
    now destruct (document_text 1 pages).
  - intros H fuel. rewrite convert_no_tables.
    + assert (E : forall i, document_text i pages = [] /\
                            scan_flags i pages = []).
      { induction H as [|page rest (_ & Ht & Hs) _ IH]; intros i; simpl;
          [split; reflexivity|].
        unfold text_lines. rewrite Ht, Hs. apply IH. }
      destruct (E 1%N) as (-> & ->). reflexivity.
    + eapply Forall_impl; [|exact H]. intros page (Hp & _). exact Hp.
Qed.

(** C4 (amended). With two surviving tables on page 1, one on page 2 and
    none on page 3, the sheets are [p1_tbl1], [p1_tbl2] and [p2_tbl1], and
    the Info sheet if page 3 looks scanned: a Text sheet is written only
    when the whole document has no table. The conversion gives the book of
    these sheets, unless the writer refuses one of them. *)
Theorem convert_scenario (p1 p2 p3 : Page) (t1 t2 t3 : list Row) :
  surviving_tables p1 = [t1; t2] ->
  surviving_tables p2 = [t3] ->
  surviving_tables p3 = [] ->
  forall fuel,
    convert_pdf_to_excel_bytes py_float excel_accepts fuel [p1; p2; p3] =
    written excel_accepts
      ([(py "p1_tbl1", table_frame py_float t1);
        (py "p1_tbl2", table_frame py_float t2);
        (py "p2_tbl1", table_frame py_float t3)]
       ++ info_sheets (scan_flags 3 [p3])).
Proof.
  intros H1 H2 H3 fuel. rewrite convert_few_tables.
  - cbn [table_sheets loose_flags loose_text]. rewrite H1, H2, H3.
    cbn [number_sheets app text_sheets]. rewrite !app_nil_r. reflexivity.
  - vm_compute. reflexivity.
  - repeat constructor; rewrite ?H1, ?H2, ?H3; vm_compute; reflexivity.
Qed.

(** C7 (amended). When the loop that makes a sheet name unique ends, its
    name is not among the names in use. It ends, within as many turns as
    there are names in use, when the sanitized candidate and the suffixes up
    to that count fit in 31 characters ([d] digits for the suffix). Names
    made for a sequence of candidates, and the sheet names of a converted
    document, are pairwise distinct. *)
Theorem unique_name_not_in (candidate : pystr) (existing : list pystr) :
  (forall fuel sheet,
     unique_name fuel candidate existing = Some sheet ->
     ~ In sheet existing) /\
  (forall d,
     1 <= d -> (N.of_nat (length existing) + 2 <= 10 ^ N.of_nat d)%N ->
     length (sanitize_sheet_name candidate) + 1 + d <= 31 ->
     exists sheet,
       unique_name (length existing) candidate existing = Some sheet /\
       ~ In sheet existing) /\
  (forall fuel candidates out,
     unique_names fuel candidates [] = Some out -> NoDup out) /\
  (forall fuel pages wb,
     convert_pdf_to_excel_bytes py_float excel_accepts fuel pages
       = Some (Ok wb) ->
     NoDup (sheetnames wb)).
Proof.
  split; [|split; [|split]].
  - intros fuel sheet. apply unique_sheet_not_in.
  - intros d Hd Hn Hl.
    destruct (@unique_sheet_terminates candidate existing d Hd Hn Hl)
      as (sheet & E).
    exists sheet. split; [exact E|]. now apply unique_sheet_not_in in E.
  - intros fuel candidates out. apply unique_names_NoDup. constructor.
  - intros fuel pages wb. apply convert_sheetnames_NoDup.
Qed.

(** C9. The tables of a page are those of the primary mode ([find_tables]);
    when that fails, those of the secondary mode ([extract_tables]); when
    both fail, none. The failure is not propagated: an exception leaves the
    converter only when the writer refuses a sheet it was given (that of a
    surviving table, the Text sheet or the Info sheet), and a page where
    both modes fail is treated as one where no table was found. *)
Theorem extracted_tables_never_propagates (page : Page) :
  (exists tables,
     extracted_tables page = Ok tables /\
     (forall t, primary_mode page = Ok t -> tables = t) /\
     (forall t, primary_mode page = Raised -> secondary_mode page = Ok t ->
                tables = t) /\
     (primary_mode page = Raised -> secondary_mode page = Raised ->
      tables = [])) /\
  (forall fuel pages,
     convert_pdf_to_excel_bytes py_float excel_accepts fuel pages
       = Some Raised ->
     exists sheet df,
       excel_accepts sheet df = false /\
       ((exists page' rows,
           In page' pages /\ In rows (surviving_tables page') /\
           df = table_frame py_float rows) \/
        sheet = py "Text" \/ sheet = py "Info")) /\
  (forall fuel before after,
     primary_mode page = Raised -> secondary_mode page = Raised ->
     convert_pdf_to_excel_bytes py_float excel_accepts fuel
       (before ++ page :: after) =
     convert_pdf_to_excel_bytes py_float excel_accepts fuel
       (before ++ without_tables page :: after)).
Proof.
  split; [|split].
  - rewrite extracted_tables_modes.
    destruct (primary_mode page) as [t1|]; simpl.
    + exists t1. repeat split; try discriminate. now intros t [= ->].
    + destruct (secondary_mode page) as [t2|]; simpl.
      * exists t2. repeat split; try discriminate. now intros t _ [= ->].
      * exists []. repeat split; discriminate.
  - intros fuel pages. apply convert_raised.
  - intros fuel before after H1 H2. unfold convert_pdf_to_excel_bytes.
    rewrite !convert_pages_app.
    destruct (convert_pages py_float excel_accepts fuel 1 before init_state)
      as [[st|]|]; try reflexivity.
    simpl. now rewrite (@convert_page_without_tables fuel _ page st H1 H2).
Qed.

End ConverterFacts.

(** ** Concrete inputs *)

Lemma long_name_truncated (suffix : N) :
  sanitize_sheet_name (long_name ++ py "_" ++ str_int suffix) = long_name.
Proof.
  rewrite sanitize_plain.
  - rewrite firstn_app. reflexivity.
  - apply Forall_app. split; [|apply suffix_plain].
    unfold long_name. apply Forall_forall. intros c Hc.
    apply repeat_spec in Hc. now subst.
  - discriminate.
Qed.

Lemma long_name_loops (fuel : nat) : forall suffix,
  unique_sheet fuel [long_name] long_name long_name suffix = None.
Proof.
  induction fuel as [|f IH]; intros suffix; cbn [unique_sheet];
    destruct (in_dec pystr_eq_dec long_name [long_name]) as [i|n];
    try reflexivity; try (exfalso; apply n; now left).
  rewrite long_name_truncated. apply IH.
Qed.

(** C7, as stated, fails: with a 31-character candidate that is in use, the
    loop tries the candidate again and again. *)
Lemma unique_name_long_never_ends :
  sanitize_sheet_name long_name = long_name /\
  ~ exists fuel sheet, unique_name fuel long_name [long_name] = Some sheet.
Proof.
  split; [reflexivity|]. intros (fuel & sheet & H). unfold unique_name in H.
  change (sanitize_sheet_name long_name) with long_name in H.
  now rewrite long_name_loops in H.
Qed.

(** C4, as stated, fails: the tables of pages 1 and 2 are written and the
    lines of page 3 are not. *)
Lemma scenario_has_no_text_sheet :
  map (fun page => length (surviving_tables page)) scenario_document
    = [2; 1; 0] /\
  document_text 3 (skipn 2 scenario_document)
    = [(3%N, py "First line"); (3%N, py "Second line")] /\
  exists wb,
    convert_pdf_to_excel_bytes float_accepts_ascii openpyxl_accepts 0
      scenario_document = Some (Ok wb) /\
    sheetnames wb = [py "p1_tbl1"; py "p1_tbl2"; py "p2_tbl1"] /\
    ~ In (py "Text") (sheetnames wb).
Proof.
  split; [reflexivity|]. split; [reflexivity|].
  eexists. split; [vm_compute; reflexivity|]. split; [reflexivity|].
  vm_compute. intros [H|[H|[H|[]]]]; discriminate H.
Qed.

Lemma convert_at_least_one_sheet_witness :
  convert_pdf_to_excel_bytes float_accepts_ascii openpyxl_accepts 0
    text_document =
  Some (Ok [(py "Text",
             Frame_text [(Some 1%N, py "First line");
                         (Some 1%N, py "Second line");
                         (Some 3%N, py "Last line")]);
            (py "Info",
             Frame_info
               (py "Some pages appear scanned (image-only). OCR recommended.")
               (py "2"))]) /\
  convert_pdf_to_excel_bytes float_accepts_ascii openpyxl_accepts 0
    [blank_page; blank_page] =
  Some (Ok [(py "Text",
             Frame_text [(None, py "No extractable content found.")])]) /\
  (exists wb,
     convert_pdf_to_excel_bytes float_accepts_ascii openpyxl_accepts 0
       scenario_document = Some (Ok wb) /\ wb <> []).
Proof.
  split; [|split].
  - rewrite (proj1 (proj2 (proj2
      (convert_at_least_one_sheet float_accepts_ascii openpyxl_accepts
         text_document)))); [vm_compute; reflexivity|].
    repeat constructor.
  - rewrite (proj2 (proj2 (proj2
      (convert_at_least_one_sheet float_accepts_ascii openpyxl_accepts
         [blank_page; blank_page])))); [vm_compute; reflexivity|].
    repeat constructor.
  - destruct (proj1 (proj2
      (convert_at_least_one_sheet float_accepts_ascii openpyxl_accepts
         scenario_document))) as (Hne & Hc).
    + split; [reflexivity | repeat constructor].
    + eexists. split; [rewrite Hc; vm_compute; reflexivity | discriminate].
Defined.

Lemma convert_scenario_witness :
  convert_pdf_to_excel_bytes float_accepts_ascii openpyxl_accepts 0
    scenario_document =
  Some (Ok [(py "p1_tbl1",
             Frame_labeled [py "Name"; py "Qty"]
               [[cell "Apple"; cell "3"]; [cell "Pear"; cell "5"]]);
            (py "p1_tbl2", Frame_rows report_table);
            (py "p2_tbl1",
             Frame_labeled [py "Name"; py "Qty"]
               [[cell "Apple"; cell "3"]; [cell "Pear"; cell "5"]])]).
Proof.
  unfold scenario_document.
  rewrite (@convert_scenario float_accepts_ascii openpyxl_accepts _ _ _
             fruit_table report_table fruit_table);
    [vm_compute; reflexivity | reflexivity | reflexivity | reflexivity].
Defined.

Lemma unique_name_not_in_witness :
  exists sheet,
    unique_name 1 (py "p1_tbl1") [py "p1_tbl1"] = Some sheet /\
    ~ In sheet [py "p1_tbl1"].
Proof.
  apply (proj1 (proj2
    (unique_name_not_in float_accepts_ascii openpyxl_accepts
       (py "p1_tbl1") [py "p1_tbl1"]))
    1); [lia | vm_compute; discriminate | vm_compute; lia].
Defined.

(** ** Binary64 division of two integers *)

Section FloatFacts.
Local Open Scope Z_scope.












End FloatFacts.

(** ** The Header Inferencer *)

Section HeaderFacts.
Variable py_float : pystr -> bool.

Lemma first_all_str_numeric (first : Row) :
  forallb (fun x => is_None x || negb (is_number py_float x)) first =
  negb (existsb (is_numeric py_float) first).
Proof.
  induction first as [|x first IH]; simpl; [reflexivity|].
  rewrite IH, negb_orb. f_equal. now destruct x.
Qed.

Lemma remaining_cells_pool (first : Row) (rest : list Row) :
  remaining_cells rest = pool (first :: rest).
Proof.
  unfold remaining_cells, pool. simpl tl.
  induction rest as [|row rest IH]; simpl; [reflexivity|].
  now rewrite filter_app, IH.
Qed.

Lemma pool_nonblank (rows : list Row) :
  Forall (fun x => nonblank x = true) (pool rows).
Proof.
  apply Forall_forall. intros x Hx. unfold pool in Hx.
  now apply filter_In in Hx.
Qed.

Lemma count_numbers_numeric (cells : list Cell) :
  Forall (fun x => nonblank x = true) cells ->
  count_numbers py_float cells =
  Z.of_nat (length (filter (is_numeric py_float) cells)).
Proof.
  unfold count_numbers.
  induction 1 as [|x cells Hx _ IH]; [reflexivity|].
  cbn [map fold_right filter]. rewrite IH.
  destruct x as [s|]; [|discriminate]. unfold is_number. cbn [str_cell is_numeric].
  destruct (py_float (remove_commas s)); cbn [Z.b2z length]; lia.
Qed.



Lemma infer_header_row_cons (x : Cell) (first : Row) (rest : list Row) :
  infer_header_row py_float ((x :: first) :: rest) =
  if existsb (is_numeric py_float) (x :: first) then None
  else if float_gt (numeric_ratio py_float (pool ((x :: first) :: rest)))
                   float_0_15
       then Some 0 else None.
Proof.
  unfold infer_header_row.
  rewrite first_all_str_numeric, negb_involutive.
  now rewrite (remaining_cells_pool (x :: first) rest).
Qed.




End HeaderFacts.

(** Outside the grids, on a table whose first row is empty (which
    [clean_table_data] never returns), the guard of line 29 answers "none"
    before any cell is looked at. *)
Example guard_on_empty_first_row :
  let rows := [[]; [cell "1"]] in
  (forall width, ~ Grid_invariant width rows) /\
  infer_header_row float_accepts_ascii rows = None.
Proof.
  split; [|reflexivity].
  intros width (_ & Hnb & _). inversion Hnb as [|? ? H _]. discriminate H.
Qed.


(** The scenarios of the specification. *)

Example sanitize_revenue :
  sanitize_sheet_name (py "Revenue: Q1/Q2 [Final]") = py "Revenue Q1 Q2 Final".
Proof. reflexivity. Qed.

Example fruit_table_header :
  table_frame float_accepts_ascii fruit_table =
  Frame_labeled [py "Name"; py "Qty"]
                [[cell "Apple"; cell "3"]; [cell "Pear"; cell "5"]].
Proof. reflexivity. Qed.

Example report_table_no_header :
  table_frame float_accepts_ascii report_table = Frame_rows report_table.
Proof. reflexivity. Qed.

Example ragged_table_cleaned :
  clean_table_data ragged_table = [[cell "a"; None]; [cell "b"; cell "c"]].
Proof. reflexivity. Qed.

Example float_0_15_bits :
  float_0_15 = S754_finite false 5404319552844595 (-55).
Proof. reflexivity. Qed.


Lemma sanitize_sheet_name_valid_witness :
  sanitize_sheet_name (py " :/ ") = py "Sheet".
Proof.
  apply (proj2 (proj2 (proj2 (sanitize_sheet_name_valid (py " :/ "))))).
  reflexivity.
Defined.

Lemma looks_scanned_iff_witness :
  looks_scanned scanned_page = Ok true /\ looks_scanned blank_page = Ok false.
Proof.
  split.
  - destruct (looks_scanned_iff scanned_page) as (b & E & Hb & _).
    rewrite E. f_equal. apply Hb.
    exists (Some []), (Some [{| image_name := py "Im0" |}]).
    repeat split; simpl; lia.
  - destruct (looks_scanned_iff blank_page) as (b & E & _ & Hw & _).
    rewrite E. f_equal. now apply Hw.
Defined.

Lemma extracted_tables_never_propagates_witness :
  extracted_tables blank_page = Ok [] /\
  convert_pdf_to_excel_bytes float_accepts_ascii openpyxl_accepts 0
    (scenario_document ++ [blank_page]) =
  convert_pdf_to_excel_bytes float_accepts_ascii openpyxl_accepts 0
    (scenario_document ++ [without_tables blank_page]) /\
  convert_pdf_to_excel_bytes float_accepts_ascii openpyxl_accepts 0
    [sample_page [control_table] []] = Some Raised /\
  exists sheet df,
    openpyxl_accepts sheet df = false /\
    ((exists page rows,
        In page [sample_page [control_table] []] /\
        In rows (surviving_tables page) /\
        df = table_frame float_accepts_ascii rows) \/
     sheet = py "Text" \/ sheet = py "Info").
Proof.
  destruct (extracted_tables_never_propagates float_accepts_ascii
              openpyxl_accepts blank_page)
    as ((tables & E & _ & _ & H) & Hr & Hc).
  assert (R : convert_pdf_to_excel_bytes float_accepts_ascii openpyxl_accepts 0
                [sample_page [control_table] []] = Some Raised)
    by (vm_compute; reflexivity).
  split; [|split; [|split]].
  - rewrite E. f_equal. now apply H.
  - now apply Hc.
  - exact R.
  - exact (Hr _ _ R).
Defined.

(** ** More on the Row Normalizer *)

Lemma filter_map_filter {A B} (f : A -> B) (P : A -> bool) (Q : B -> bool)
    (l : list A) :
  (forall x, In x l -> Q (f x) = true -> P x = true) ->
  filter Q (map f (filter P l)) = filter Q (map f l).
Proof.
  induction l as [|x l IH]; intros H; simpl; [reflexivity|].
  assert (IH' : filter Q (map f (filter P l)) = filter Q (map f l))
    by (apply IH; intros y Hy; apply H; now right).
  destruct (P x) eqn:Px; simpl; rewrite IH'; [reflexivity|].
  destruct (Q (f x)) eqn:Qx; [|reflexivity].
  rewrite (H x) in Px; [discriminate | now left | exact Qx].
Qed.

Lemma filter_nonblank_padding (row : Row) (start len : nat) :
  length row <= start ->
  filter nonblank (map (original_or_padding row) (seq start len)) = [].
Proof.
  intros H. apply filter_none. intros x Hx. apply in_map_iff in Hx.
  destruct Hx as (c & <- & Hc). apply in_seq in Hc.
  rewrite original_or_padding_overflow by lia. reflexivity.
Qed.

(** Reading a raw row at the surviving columns keeps its non-empty cells. *)
Lemma nonblank_cells_row (raw : list Row) (row : Row) :
  In row raw ->
  filter nonblank (map (original_or_padding row) (surviving_columns raw)) =
  filter nonblank row.
Proof.
  intros Hin. unfold surviving_columns.
  rewrite filter_map_filter.
  - pose proof (length_le_list_max raw row Hin) as L.
    set (m := list_max (map (@length Cell) raw)) in *.
    replace m with (length row + (m - length row)) by lia.
    rewrite seq_app, map_app, filter_app, map_original_seq.
    rewrite filter_nonblank_padding by (simpl; lia). apply app_nil_r.
  - intros c _ Hc. apply column_used_In. now exists row.
Qed.

Lemma filter_nonblank_blank_row (row : Row) :
  existsb nonblank row = false -> filter nonblank row = [].
Proof.
  intros H. apply filter_none. intros x Hx.
  destruct (nonblank x) eqn:E; [|reflexivity].
  assert (existsb nonblank row = true)
    by (apply existsb_exists; now exists x).
  congruence.
Qed.

Lemma nonblank_cells_clean (raw : list Row) :
  nonblank_cells (clean_table_data raw) = nonblank_cells raw.
Proof.
  unfold nonblank_cells. rewrite clean_table_data_eq.
  assert (H : forall rows cols,
            (forall row, In row rows ->
               filter nonblank (map (original_or_padding row) cols)
               = filter nonblank row) ->
            filter nonblank
              (concat (map (fun row => map (original_or_padding row) cols)
                           (filter (existsb nonblank) rows)))
            = filter nonblank (concat rows)).
  { intros rows cols. induction rows as [|row rows IH]; intros H;
      [reflexivity|].
    cbn [filter concat]. rewrite filter_app.
    assert (IH' := IH (fun r Hr => H r (or_intror Hr))).
    destruct (existsb nonblank row) eqn:E.
    - cbn [map concat]. rewrite filter_app, IH'. f_equal. apply H. now left.
    - rewrite IH'. now rewrite (filter_nonblank_blank_row row E). }
  apply H. intros row Hrow. now apply nonblank_cells_row.
Qed.

(** Normalisation keeps every non-empty cell, in the same row-major
    order: nothing but blank cells is removed or added. *)
Theorem clean_table_data_keeps_cells (raw : list Row) :
  nonblank_cells (clean_table_data raw) = nonblank_cells raw.
Proof. apply nonblank_cells_clean. Qed.




(** ** More on the Header Inferencer *)

Section HeaderExtras.
Variable py_float : pystr -> bool.

Lemma count_numbers_none (cells : list Cell) :
  Forall (fun x => nonblank x = true) cells ->
  existsb (is_numeric py_float) cells = false ->
  count_numbers py_float cells = 0%Z.
Proof.
  intros Hnb H. rewrite (count_numbers_numeric py_float Hnb).
  rewrite filter_none; [reflexivity|]. intros x Hx.
  destruct (is_numeric py_float x) eqn:E; [|reflexivity].
  assert (existsb (is_numeric py_float) cells = true)
    by (apply existsb_exists; now exists x).
  congruence.
Qed.

Lemma zero_ratio_not_above (n : nat) :
  float_gt (int_truediv 0 (Z.max 1 (Z.of_nat n))) float_0_15 = false.
Proof.
  destruct (Z.max 1 (Z.of_nat n)) eqn:E; [lia|reflexivity|lia].
Qed.

Lemma header_found_inv (rows : list Row) (h : nat) :
  infer_header_row py_float rows = Some h ->
  h = 0 /\
  hd [] rows <> [] /\
  existsb (is_numeric py_float) (hd [] rows) = false /\
  existsb (is_numeric py_float) (pool rows) = true.
Proof.
  destruct rows as [|[|x first] rest]; try discriminate.
  rewrite infer_header_row_cons. cbn [hd].
  destruct (existsb (is_numeric py_float) (x :: first)) eqn:E1;
    [discriminate|].
  destruct (existsb (is_numeric py_float) (pool ((x :: first) :: rest)))
    eqn:E2.
  - destruct (float_gt _ _); [|discriminate]. intros [= <-].
    repeat split; try reflexivity; try assumption. discriminate.
  - unfold numeric_ratio.
    rewrite (count_numbers_none (pool_nonblank _) E2), zero_ratio_not_above.
    discriminate.
Qed.

(** A header is found only at index 0, for a non-empty row 0 without a
    numeric cell, and only when some non-empty cell below it is numeric: a
    one-row grid or an all-text body has no header. *)
Theorem header_needs_numeric_body (rows : list Row) (h : nat) :
  infer_header_row py_float rows = Some h ->
  h = 0 /\
  hd [] rows <> [] /\
  existsb (is_numeric py_float) (hd [] rows) = false /\
  existsb (is_numeric py_float) (pool rows) = true.
Proof. apply header_found_inv. Qed.

(** When a header is found in a normalised table, the frame is labelled
    with the cells of row 0, an absent cell giving the empty label and any
    other cell its own string; its data are the rows below, there is at
    least one, and every data row has as many cells as there are labels. *)
Theorem labeled_frame_shape (raw : list Row) (h : nat) :
  infer_header_row py_float (clean_table_data raw) = Some h ->
  exists header data,
    clean_table_data raw = header :: data /\
    data <> [] /\
    table_frame py_float (clean_table_data raw)
      = Frame_labeled
          (map (fun c => match c with Some s => s | None => [] end) header)
          data /\
    Forall (fun row => length row = length header) data.
Proof.
  intros H. destruct (header_found_inv _ H) as (-> & _ & _ & Hp).
  destruct (clean_table_data_invariant raw) as (Hlen & _).
  unfold table_frame. rewrite H.
  destruct (clean_table_data raw) as [|header data]; [discriminate|].
  exists header, data. repeat split.
  - intros ->. discriminate.
  - inversion Hlen as [|? ? Hh Hd]; subst.
    eapply Forall_impl; [|exact Hd]. intros row Hr. now rewrite Hr, Hh.
Qed.

End HeaderExtras.

(** ** More on table extraction *)

Lemma all_ok_raised {A} (xs : list (result A)) :
  In Raised xs -> all_ok xs = Raised.
Proof.
  induction xs as [|x xs IH]; intros H; [destruct H|].
  destruct H as [->|H]; [reflexivity|].
  simpl. destruct x; [|reflexivity]. simpl. now rewrite IH.
Qed.

(** When [extract()] raises for one table that [find_tables] found, all
    the tables of the primary mode are dropped and the page gets those of
    [extract_tables], or none if that raises too. *)
Theorem one_failed_extract_discards_primary (page : Page)
    (tbls : list (result (list Row))) :
  find_tables page = Ok (Some tbls) -> In Raised tbls ->
  extracted_tables page =
  match extract_tables page with
  | Ok t => Ok (or_empty t)
  | Raised => Ok []
  end.
Proof.
  intros Hf Hin. rewrite extracted_tables_modes.
  unfold primary_mode, secondary_mode. rewrite Hf. cbn [bind_result or_empty].
  rewrite (all_ok_raised _ Hin). cbn [try_except].
  destruct (extract_tables page); reflexivity.
Qed.

(** ** More on sheet names *)

Lemma rstrip_cons (c : N) (s : pystr) :
  isspace c = false -> exists r, rstrip (c :: s) = c :: r.
Proof.
  intros H. unfold rstrip. simpl rev.
  destruct (@lstrip_app_last (rev s) c H) as (r & ->).
  rewrite rev_app_distr. simpl. now eexists.
Qed.

Lemma rstrip_length (s : pystr) : length (rstrip s) <= length s.
Proof.
  destruct (rstrip_prefix s) as (t & E).
  rewrite E at 2. rewrite length_app. lia.
Qed.

Lemma rstrip_fixed (s : pystr) : lstrip (rev s) = rev s -> rstrip s = s.
Proof. intros H. unfold rstrip. rewrite H. apply rev_involutive. Qed.

Lemma sanitize_head_nonspace (name : pystr) :
  exists c r, sanitize_sheet_name name = c :: r /\ isspace c = false.
Proof.
  destruct (sanitize_shape name) as (_ & Hl). cbv zeta in Hl.
  pose proof (sanitize_nonempty name) as Hne.
  destruct (sanitize_sheet_name name) as [|c r]; [congruence|].
  exists c, r. split; [reflexivity|].
  pose proof (lstrip_head (c :: r)) as H. now rewrite Hl in H.
Qed.

(** [sanitize_sheet_name] is not idempotent: on a name cut after a space
    (thirty letters, a space, three letters) the second pass gives another
    name than the first. Sanitising a sanitised name removes the trailing
    whitespace that truncation to 31 characters left, and nothing else; a
    third pass changes nothing, and so does the second when nothing was
    truncated. *)
Theorem sanitize_twice (name : pystr) :
  let once := sanitize_sheet_name name in
  sanitize_sheet_name once = rstrip once /\
  sanitize_sheet_name (sanitize_sheet_name once) = sanitize_sheet_name once /\
  (length (strip (sub_ws_runs false (sub_forbidden name))) <= 31 ->
   sanitize_sheet_name once = once) /\
  sanitize_sheet_name (sanitize_sheet_name cut_name)
    <> sanitize_sheet_name cut_name.
Proof.
  cbv zeta.
  assert (Once : forall n,
            sanitize_sheet_name (sanitize_sheet_name n)
            = rstrip (sanitize_sheet_name n)).
  { intros n. destruct (sanitize_shape n) as (Hs & Hl). cbv zeta in *.
    destruct (sanitize_head_nonspace n) as (c & r & E & Hc).
    pose proof (sanitize_clean n) as Hf. pose proof (sanitize_length n) as L.
    set (once := sanitize_sheet_name n) in *.
    unfold sanitize_sheet_name at 1.
    rewrite sub_forbidden_fixed by exact Hf.
    rewrite single_spaced_fixed by exact Hs.
    unfold strip. rewrite Hl.
    pose proof (rstrip_length once) as Lr.
    rewrite E in *. destruct (@rstrip_cons c r Hc) as (r' & Er).
    rewrite Er in *. cbn [truthy]. apply firstn_all2. lia. }
  assert (Stable : forall s, rstrip (rstrip s) = rstrip s).
  { intros s. apply rstrip_fixed. unfold rstrip. rewrite rev_involutive.
    pose proof (lstrip_head (rev s)) as H.
    destruct (lstrip (rev s)) as [|c r]; [reflexivity|].
    now apply lstrip_fixed. }
  split; [apply Once|]. split; [|split].
  - rewrite (Once (sanitize_sheet_name name)), (Once name). apply Stable.
  - intros L. rewrite Once. apply rstrip_fixed.
    unfold sanitize_sheet_name.
    destruct (truthy _); [|reflexivity].
    rewrite firstn_all2 by exact L. apply strip_ends.
  - vm_compute. discriminate.
Qed.

(** For page numbers and table numbers below 10^13 the sheet name is
    [p{page}_tbl{n}] unchanged, and different pairs give different names. *)
Theorem table_sheet_exact (i n i' n' : N) :
  (i < 10 ^ 13)%N -> (n < 10 ^ 13)%N ->
  (i' < 10 ^ 13)%N -> (n' < 10 ^ 13)%N ->
  table_sheet i n = py "p" ++ str_int i ++ py "_tbl" ++ str_int n /\
  (table_sheet i n = table_sheet i' n' -> i = i' /\ n = n').
Proof.
  intros Hi Hn Hi' Hn'. rewrite !table_sheet_small by assumption.
  split; [reflexivity | apply table_name_inj].
Qed.

Lemma table_sheet_exact_witness :
  table_sheet 12 3 = py "p12_tbl3" /\
  (table_sheet 12 3 = table_sheet 1 23 -> 12%N = 1%N /\ 3%N = 23%N).
Proof.
  apply (@table_sheet_exact 12 3 1 23); reflexivity.
Defined.

(** The loop returns a name that is not in use: the candidate itself,
    or else the first of [base_suffix], [base_(suffix+1)], ... (sanitised)
    that is not in use, the candidate and all earlier ones being in use. *)
Theorem unique_sheet_first_free (fuel : nat) (names : list pystr)
    (base : pystr) :
  forall sheet suffix s,
    unique_sheet fuel names base sheet suffix = Some s ->
    ~ In s names /\
    ((s = sheet) \/
     (In sheet names /\
      exists k, k < fuel /\
        s = sanitize_sheet_name (suffixed base (suffix + N.of_nat k)) /\
        forall j, j < k ->
          In (sanitize_sheet_name (suffixed base (suffix + N.of_nat j)))
             names)).
Proof.
  induction fuel as [|f IH]; intros sheet suffix s; cbn [unique_sheet];
    destruct (in_dec pystr_eq_dec sheet names) as [i|n]; try discriminate.
  - intros [= <-]. split; [exact n | now left].
  - intros H. destruct (IH _ _ _ H) as (Hs & [E|(Hin & k & Hk & E & Hj)]);
      (split; [exact Hs|]); right; (split; [exact i|]).
    + exists 0. split; [lia|]. rewrite N.add_0_r. split; [exact E|].
      intros j Hj. lia.
    + exists (S k). split; [lia|].
      replace (suffix + N.of_nat (S k))%N with (suffix + 1 + N.of_nat k)%N
        by lia.
      split; [exact E|]. intros [|j] Hlt.
      * now rewrite N.add_0_r.
      * replace (suffix + N.of_nat (S j))%N with (suffix + 1 + N.of_nat j)%N
          by lia.
        apply Hj. lia.
  - intros [= <-]. split; [exact n | now left].
Qed.

Lemma unique_sheet_first_free_witness :
  unique_sheet 5 [py "Data"; py "Data_2"] (py "Data") (py "Data") 2
    = Some (py "Data_3") /\
  ~ In (py "Data_3") [py "Data"; py "Data_2"].
Proof.
  assert (E : unique_sheet 5 [py "Data"; py "Data_2"] (py "Data") (py "Data") 2
              = Some (py "Data_3")) by reflexivity.
  split; [exact E|].
  exact (proj1 (@unique_sheet_first_free 5 _ _ _ _ _ E)).
Defined.

(** ** The whole book *)

Section BookFacts.
Variable py_float : pystr -> bool.
Variable excel_accepts : pystr -> Frame -> bool.

(** Whenever the converter returns a book, it is the table sheets, one
    for each surviving table in page and table order, then the Text sheet
    if there is no table sheet, then the Info sheet if a page without
    tables looked scanned. The Text sheet holds one (Page, Text) record for
    each TextLine of the pages, or the placeholder record when there is
    none. No table sheet is named Text or Info, and the writer accepted
    every sheet. *)
Theorem convert_book_structure (fuel : nat) (pages : list Page)
    (wb : Workbook) :
  convert_pdf_to_excel_bytes py_float excel_accepts fuel pages = Some (Ok wb) ->
  exists tables,
    wb = tables
         ++ match tables with
            | [] =>
                [(py "Text",
                  Frame_text
                    match loose_text 1 pages with
                    | [] => [(None, py "No extractable content found.")]
                    | lines =>
                        map (fun line => (Some (fst line), snd line)) lines
                    end)]
            | _ :: _ => []
            end
         ++ info_sheets (loose_flags 1 pages) /\
    map snd tables =
      map (table_frame py_float) (concat (map surviving_tables pages)) /\
    ~ In (py "Text") (sheetnames tables) /\
    ~ In (py "Info") (sheetnames tables) /\
    accepts_all excel_accepts wb = true.
Proof.
  intros H. destruct (convert_book_parts _ _ _ _ H)
    as (tables & E & Hf & HT & HI & Ha).
  exists tables. repeat split; try assumption.
  rewrite E. f_equal. f_equal. unfold text_sheets, text_sheet.
  destruct tables; [|reflexivity]. now destruct (loose_text 1 pages).
Qed.

(** A small document is converted, whatever the fuel, to the sheets
    [p{page}_tbl{n}] of its surviving tables, numbered from 1 on each page,
    followed by the Text and Info sheets as above, unless the writer
    refuses one of these sheets: then the conversion raises. *)
Theorem convert_small_document (fuel : nat) (pages : list Page) :
  small_document pages ->
  convert_pdf_to_excel_bytes py_float excel_accepts fuel pages =
  let sheets :=
    table_sheets py_float 1 pages
    ++ text_sheets (table_sheets py_float 1 pages) (loose_text 1 pages)
    ++ info_sheets (loose_flags 1 pages) in
  if forallb (fun sheet => excel_accepts (fst sheet) (snd sheet)) sheets
  then Some (Ok sheets) else Some Raised.
Proof. apply convert_small. Qed.

End BookFacts.

(** ** The Info sheet *)

Lemma loose_flags_bound (pages : list Page) :
  forall i p, In p (loose_flags i pages) -> (i <= p)%N.
Proof.
  induction pages as [|page rest IH]; intros i p; cbn [loose_flags];
    [intros []|].
  intros H. apply in_app_or in H. destruct H as [H|H].
  - destruct (surviving_tables page); [|destruct H].
    cbn [scan_flags] in H. destruct (looks_scanned page) as [[|]|];
      try destruct H as [<-|[]]; try destruct H. lia.
  - apply IH in H. lia.
Qed.

Lemma loose_flags_sorted (pages : list Page) :
  forall i, StronglySorted N.lt (loose_flags i pages).
Proof.
  induction pages as [|page rest IH]; intros i; cbn [loose_flags];
    [constructor|].
  destruct (surviving_tables page); [|apply IH].
  cbn [scan_flags]. destruct (looks_scanned page) as [[|]|];
    cbn [app]; try apply IH.
  constructor; [apply IH|]. apply Forall_forall. intros p Hp.
  apply loose_flags_bound in Hp. lia.
Qed.

Lemma loose_flags_In (pages : list Page) :
  forall i p,
    In p (loose_flags i pages) <->
    exists k page,
      nth_error pages k = Some page /\ p = (i + N.of_nat k)%N /\
      surviving_tables page = [] /\ looks_scanned page = Ok true.
Proof.
  induction pages as [|page rest IH]; intros i p; cbn [loose_flags].
  - split; [intros [] | intros ([|k] & page & H & _); discriminate H].
  - rewrite in_app_iff, IH. split.
    + intros [H|(k & pg & Hk & -> & Hs & Hl)].
      * destruct (surviving_tables page) eqn:Es; [|destruct H].
        cbn [scan_flags] in H.
        destruct (looks_scanned page) as [[|]|] eqn:El;
          try destruct H as [<-|[]]; try destruct H.
        exists 0, page. repeat split; trivial. lia.
      * exists (S k), pg. repeat split; trivial. lia.
    + intros ([|k] & pg & Hk & -> & Hs & Hl).
      * left. injection Hk as <-. rewrite Hs. cbn [scan_flags].
        rewrite Hl. left. lia.
      * right. exists k, pg. repeat split; trivial. lia.
Qed.

(** The pages that the Info sheet lists are exactly the pages without a
    surviving table that look scanned, in ascending order without any
    sorting, written in decimal and separated by a comma and a space; the
    book has the Info sheet exactly when there is such a page. *)
Theorem info_sheet_pages (py_float : pystr -> bool)
    (excel_accepts : pystr -> Frame -> bool) (fuel : nat)
    (pages : list Page) (wb : Workbook) :
  convert_pdf_to_excel_bytes py_float excel_accepts fuel pages = Some (Ok wb) ->
  let flags := loose_flags 1 pages in
  StronglySorted N.lt flags /\
  (forall p,
     In p flags <->
     exists k page,
       nth_error pages k = Some page /\ p = (1 + N.of_nat k)%N /\
       surviving_tables page = [] /\ looks_scanned page = Ok true) /\
  (forall df,
     In (py "Info", df) wb <->
     flags <> [] /\
     df = Frame_info
            (py "Some pages appear scanned (image-only). OCR recommended.")
            (join (py ", ") (map str_int flags))) /\
  map int_of_digits (map str_int flags) = flags.
Proof.
  intros H. cbv zeta. split; [apply loose_flags_sorted|].
  split; [apply loose_flags_In|]. split.
  - destruct (convert_book_parts _ _ _ _ H) as (tables & -> & _ & _ & Hi & _).
    intros df. rewrite !in_app_iff. split.
    + intros [Hin|[Hin|Hin]].
      * exfalso. apply Hi. unfold sheetnames.
        apply (in_map fst) in Hin. exact Hin.
      * destruct tables; [|destruct Hin].
        destruct Hin as [Hin|[]]. discriminate Hin.
      * destruct (loose_flags 1 pages) as [|p ps]; [destruct Hin|].
        destruct Hin as [[= <-]|[]]. split; [discriminate | reflexivity].
    + intros (Hne & ->). right. right.
      destruct (loose_flags 1 pages); [congruence | now left].
  - rewrite map_map. rewrite <- (map_id (loose_flags 1 pages)) at 2.
    apply map_ext. apply int_of_digits_str_int.
Qed.

(** ** The batch of uploaded files *)

Section BatchFacts.
Variable py_float : pystr -> bool.
Variable excel_accepts : pystr -> Frame -> bool.
Variable exception_text : list Page -> pystr.
Variable splitext_root : pystr -> pystr.

Lemma batch_entries (fuel : nat) (files : list Upload) :
  forall zf failed zf' failed',
    batch py_float excel_accepts exception_text splitext_root fuel files
          zf failed = Some (zf', failed') ->
    exists entries,
      zf' = zf ++ entries /\
      Forall2 (fun f entry =>
                 fst entry = xlsx_name splitext_root f /\
                 exists pages,
                   upload_opened f = Readable pages /\
                   convert_pdf_to_excel_bytes py_float excel_accepts fuel pages
                     = Some (Ok (snd entry)))
              (filter (converts py_float excel_accepts fuel) files) entries /\
      failed' =
        failed ++ map (failure_of exception_text)
                      (filter (fun f =>
                                 negb (converts py_float excel_accepts fuel f))
                              files) /\
      Forall (fun f =>
                match upload_opened f with
                | Unreadable _ => True
                | Readable pages =>
                    convert_pdf_to_excel_bytes py_float excel_accepts fuel pages
                      = Some Raised
                end)
             (filter (fun f => negb (converts py_float excel_accepts fuel f))
                     files) /\
      forall a b,
        batch py_float excel_accepts exception_text splitext_root fuel
              (filter (converts py_float excel_accepts fuel) files) a b
          = Some (a ++ entries, b).
Proof.
  induction files as [|f rest IH]; intros zf failed zf' failed'.
  - cbn. intros [= <- <-]. exists []. rewrite !app_nil_r.
    repeat split; try constructor. intros a b. now rewrite app_nil_r.
  - cbn [batch filter]. unfold convert_upload, converts, failure_of.
    destruct (upload_opened f) as [e|pages] eqn:Ef; cbn [negb].
    + intros H. apply IH in H.
      destruct H as (entries & -> & HF & -> & HR & Hb).
      exists entries. cbn [map]. rewrite Ef, <- app_assoc.
      repeat split; try assumption.
      constructor; [now rewrite Ef | exact HR].
    + destruct (convert_pdf_to_excel_bytes py_float excel_accepts fuel pages)
        as [[wb|]|] eqn:Ec; [| |discriminate]; cbn [negb].
      * intros H. apply IH in H.
        destruct H as (entries & -> & HF & -> & HR & Hb).
        exists ((xlsx_name splitext_root f, wb) :: entries).
        rewrite <- app_assoc. repeat split; trivial.
        -- constructor; [|exact HF]. split; [reflexivity|]. now exists pages.
        -- intros a b. cbn [batch]. unfold convert_upload.
           rewrite Ef, Ec, Hb, <- app_assoc. reflexivity.
      * intros H. apply IH in H.
        destruct H as (entries & -> & HF & -> & HR & Hb).
        exists entries. cbn [map]. rewrite Ef, <- app_assoc.
        repeat split; try assumption.
        constructor; [now rewrite Ef | exact HR].
Qed.

(** In a batch, the archive gets one entry per file whose conversion gives
    a book, in upload order, named by its root and [.xlsx] and holding that
    book; [failed] gets one line, the name and the text of the exception,
    per file that cannot be opened or whose conversion raises, in order;
    every file is in one of the two, and the archive is the same as if the
    failed files had not been uploaded. *)
Theorem batch_isolates_failures (fuel : nat) (uploaded_files : list Upload)
    (zf : list (pystr * Workbook)) (failed : list pystr) :
  batch py_float excel_accepts exception_text splitext_root fuel
        uploaded_files [] [] = Some (zf, failed) ->
  let converted := filter (converts py_float excel_accepts fuel)
                          uploaded_files in
  let others :=
    filter (fun f => negb (converts py_float excel_accepts fuel f))
           uploaded_files in
  Forall2 (fun f entry =>
             fst entry = splitext_root (upload_name f) ++ py ".xlsx" /\
             exists pages,
               upload_opened f = Readable pages /\
               convert_pdf_to_excel_bytes py_float excel_accepts fuel pages
                 = Some (Ok (snd entry)))
          converted zf /\
  Forall2 (fun f line =>
             match upload_opened f with
             | Unreadable e => line = upload_name f ++ py " (" ++ e ++ py ")"
             | Readable pages =>
                 convert_pdf_to_excel_bytes py_float excel_accepts fuel pages
                   = Some Raised /\
                 line = upload_name f ++ py " (" ++ exception_text pages
                                      ++ py ")"
             end)
          others failed /\
  length zf + length failed = length uploaded_files /\
  batch py_float excel_accepts exception_text splitext_root fuel
        converted [] [] = Some (zf, []).
Proof.
  intros H. apply batch_entries in H.
  destruct H as (entries & -> & HF & -> & HR & Hb). cbn [app]. cbv zeta.
  split; [exact HF|]. split; [|split; [|apply Hb]].
  - clear HF Hb.
    induction HR as [|f others Hf _ IH]; cbn [map]; constructor; [|exact IH].
    unfold failure_of. destruct (upload_opened f); [reflexivity | now split].
  - rewrite length_map, <- (Forall2_length HF).
    clear. induction uploaded_files as [|f rest IH]; [reflexivity|].
    cbn [filter]. destruct (converts _ _ _ f); cbn [negb length]; lia.
Qed.

(** The batch ends when every readable file is a small document. *)
Theorem batch_returns (fuel : nat) (uploaded_files : list Upload) :
  Forall (fun f => forall pages,
            upload_opened f = Readable pages -> small_document pages)
         uploaded_files ->
  exists zf failed,
    batch py_float excel_accepts exception_text splitext_root fuel
          uploaded_files [] [] = Some (zf, failed).
Proof.
  generalize (@nil (pystr * Workbook)) as zf0.
  generalize (@nil pystr) as failed0.
  induction uploaded_files as [|f rest IH]; intros failed0 zf0 H.
  - cbn. eauto.
  - inversion H as [|? ? Hf Hrest]; subst. cbn [batch].
    unfold convert_upload. destruct (upload_opened f) as [e|pages] eqn:Ef.
    + now apply IH.
    + rewrite (convert_small py_float excel_accepts fuel (Hf pages eq_refl)).
      unfold written. destruct (accepts_all _ _); now apply IH.
Qed.

End BatchFacts.

Lemma batch_isolates_failures_witness :
  exists zf failed,
    batch float_accepts_ascii openpyxl_accepts sample_exception_text
          drop_extension 0 sample_uploads [] [] = Some (zf, failed) /\
    map fst zf = [py "a.xlsx"; py "b.xlsx"] /\
    failed = [py "broken.pdf (No /Root object!)";
              py "control.pdf (cannot be used in worksheets.)"] /\
    length zf + length failed = 4.
Proof.
  assert (E : exists zf failed,
            batch float_accepts_ascii openpyxl_accepts sample_exception_text
                  drop_extension 0 sample_uploads [] [] = Some (zf, failed))
    by (vm_compute; eauto).
  destruct E as (zf & failed & E). exists zf, failed.
  pose proof (batch_isolates_failures _ _ _ _ _ _ E) as H. cbv zeta in H.
  destruct H as (_ & _ & Hl & _).
  split; [exact E|]. split; [|split; [|exact Hl]];
    vm_compute in E; injection E as <- <-; reflexivity.
Defined.

Lemma batch_returns_witness :
  exists zf failed,
    batch float_accepts_ascii openpyxl_accepts sample_exception_text
          drop_extension 0 sample_uploads [] [] = Some (zf, failed).
Proof.
  apply batch_returns. unfold sample_uploads.
  constructor; [|constructor; [|constructor; [|constructor; [|constructor]]]];
    cbn [upload_opened]; intros pgs H; try discriminate H;
    injection H as <-; (split; [reflexivity | repeat constructor]).
Defined.

Lemma info_sheet_pages_witness :
  In (py "Info",
      Frame_info
        (py "Some pages appear scanned (image-only). OCR recommended.")
        (py "1, 3"))
     [(py "Text", Frame_text [(Some 2%N, py "Summary")]);
      (py "Info",
       Frame_info
         (py "Some pages appear scanned (image-only). OCR recommended.")
         (py "1, 3"))].
Proof.
  assert (E : convert_pdf_to_excel_bytes float_accepts_ascii openpyxl_accepts 0
                [scanned_page; sample_page [] (py "Summary"); scanned_page]
              = Some (Ok [(py "Text", Frame_text [(Some 2%N, py "Summary")]);
                          (py "Info",
                           Frame_info
                             (py "Some pages appear scanned (image-only). OCR recommended.")
                             (py "1, 3"))]))
    by (vm_compute; reflexivity).
  apply (proj1 (proj2 (proj2 (info_sheet_pages _ _ _ _ E)))).
  split; [discriminate | vm_compute; reflexivity].
Defined.

(** ** More concrete inputs *)

Lemma header_needs_numeric_body_witness :
  existsb (is_numeric float_accepts_ascii) (pool fruit_table) = true.
Proof.
  apply (@header_needs_numeric_body float_accepts_ascii fruit_table 0).
  reflexivity.
Defined.

Lemma labeled_frame_shape_witness :
  table_frame float_accepts_ascii (clean_table_data gap_table)
  = Frame_labeled [py "Name"; []] [[cell "Apple"; cell "3"]].
Proof.
  destruct (@labeled_frame_shape float_accepts_ascii gap_table 0)
    as (header & data & E & _ & -> & _); [reflexivity|].
  vm_compute in E. now injection E as <- <-.
Defined.

Lemma one_failed_extract_discards_primary_witness :
  extracted_tables half_failed_page = Ok [report_table].
Proof.
  apply (@one_failed_extract_discards_primary half_failed_page
           [Ok fruit_table; Raised]); [reflexivity|].
  right. now left.
Defined.

Lemma convert_small_document_witness :
  convert_pdf_to_excel_bytes float_accepts_ascii openpyxl_accepts 0
    scenario_document =
  Some (Ok [(py "p1_tbl1", table_frame float_accepts_ascii fruit_table);
            (py "p1_tbl2", table_frame float_accepts_ascii report_table);
            (py "p2_tbl1", table_frame float_accepts_ascii fruit_table)]) /\
  convert_pdf_to_excel_bytes float_accepts_ascii openpyxl_accepts 0
    [sample_page [fruit_table; control_table] []] = Some Raised.
Proof.
  split.
  - rewrite (@convert_small_document float_accepts_ascii openpyxl_accepts 0
               scenario_document);
      [vm_compute; reflexivity | split; [reflexivity | repeat constructor]].
  - rewrite (@convert_small_document float_accepts_ascii openpyxl_accepts 0
               [sample_page [fruit_table; control_table] []]);
      [vm_compute; reflexivity | split; [reflexivity | repeat constructor]].
Defined.

Lemma convert_book_structure_witness :
  exists tables,
    [(py "Text",
      Frame_text [(Some 1%N, py "First line");
                  (Some 1%N, py "Second line");
                  (Some 3%N, py "Last line")]);
     (py "Info",
      Frame_info
        (py "Some pages appear scanned (image-only). OCR recommended.")
        (py "2"))]
    = tables
      ++ match tables with
         | [] =>
             [(py "Text",
               Frame_text
                 match loose_text 1 text_document with
                 | [] => [(None, py "No extractable content found.")]
                 | lines =>
                     map (fun line => (Some (fst line), snd line)) lines
                 end)]
         | _ :: _ => []
         end
      ++ info_sheets (loose_flags 1 text_document) /\
    map snd tables =
      map (table_frame float_accepts_ascii)
          (concat (map surviving_tables text_document)) /\
    ~ In (py "Text") (sheetnames tables) /\
    ~ In (py "Info") (sheetnames tables) /\
    accepts_all openpyxl_accepts
      [(py "Text",
        Frame_text [(Some 1%N, py "First line");
                    (Some 1%N, py "Second line");
                    (Some 3%N, py "Last line")]);
       (py "Info",
        Frame_info
          (py "Some pages appear scanned (image-only). OCR recommended.")
          (py "2"))] = true.
Proof.
  apply (@convert_book_structure float_accepts_ascii openpyxl_accepts 0
           text_document).
  vm_compute. reflexivity.
Defined.

Lemma sanitize_twice_witness :
  sanitize_sheet_name (sanitize_sheet_name (py "Revenue: Q1/Q2 [Final]"))
  = sanitize_sheet_name (py "Revenue: Q1/Q2 [Final]") /\
  sanitize_sheet_name cut_name = repeat 97%N 30 ++ py " " /\
  sanitize_sheet_name (sanitize_sheet_name cut_name) = repeat 97%N 30.
Proof.
  split; [|split].
  - apply (proj1 (proj2 (proj2 (sanitize_twice (py "Revenue: Q1/Q2 [Final]"))))).
    vm_compute. lia.
  - reflexivity.
  - rewrite (proj1 (sanitize_twice cut_name)). reflexivity.
Defined.
